(** * PaperSelector: similarity scoring and threshold selection

    A shallow embedding of [src/src/selection.py] (class [PaperSelector])
    together with the parts of numpy and scikit-learn it calls.

    Python floats are idealised as the real numbers [R]: rounding, [nan]
    and [inf] are not represented, so the statements over [R] say which
    quantity the code computes, not its last bits.  Where the last bits
    decide an outcome, module [Binary64] computes the same formula on
    IEEE binary64 numbers.  The numpy and scikit-learn routines are
    external to the repository; they are modelled here after their
    documented behaviour (default arguments, as the selector calls them). *)

From Stdlib Require Import Reals Lra Lia List String Ascii Arith.
From Stdlib Require Import Sorting.Permutation Sorting.Sorted.
From stdpp Require Import gmap strings pretty.
From Stdlib Require PrimFloat.
Import ListNotations.

Open Scope R_scope.

(** ** Exceptions and the selector monad *)

(** Every failure of the selector is a Python [ValueError]; the
    constructors keep apart the places that raise, each with its message.
    [UnsupportedOperand] is the [TypeError] of comparing an array with
    [None]. *)
Inductive exn : Type :=
| MustComputeSimilaritiesFirst
    (* ValueError("Must compute similarities first") *)
| CustomThresholdNotProvided
    (* ValueError("custom_threshold must be provided when method='custom'") *)
| UnknownMethod (method : string)
    (* ValueError(f"Unknown method: {method}") *)
| Expected2DArray
    (* sklearn check_array: "Expected 2D array, got 1D array instead" *)
| FoundArrayWithNoSamples
    (* sklearn check_array: "Found array with 0 sample(s) ..." *)
| FoundArrayWithNoFeatures
    (* sklearn check_array: "Found array with 0 feature(s) ..." *)
| IncompatibleDimension (x_features y_features : nat)
    (* sklearn check_pairwise_arrays: "Incompatible dimension for X and Y
       matrices: X.shape[1] == %d while Y.shape[1] == %d" *)
| ZeroSizeReduction
    (* numpy: "zero-size array to reduction operation ... which has no
       identity" *)
| UnsupportedOperand.
    (* TypeError: '>=' not supported between an array and None *)

Inductive outcome (A : Type) : Type :=
| Returns (a : A)
| Raises (e : exn).
Arguments Returns {A} a.
Arguments Raises {A} e.

(** The two attributes of a [PaperSelector] instance; [None] is Python's
    [None]. *)
Record PaperSelector : Type := mkSelector {
  similarities : option (list R);
  threshold : option R
}.

(** [PaperSelector.__init__] *)
Definition init : PaperSelector :=
  {| similarities := None; threshold := None |}.

(** A method of the selector: it reads and writes [self] and either
    returns or raises.  The state after a raise is the state at the
    point of the raise. *)
Definition M (A : Type) : Type := PaperSelector -> outcome A * PaperSelector.

Definition ret {A} (a : A) : M A := fun self => (Returns a, self).

Definition raise {A} (e : exn) : M A := fun self => (Raises e, self).

Definition bind {A B} (m : M A) (f : A -> M B) : M B :=
  fun self =>
    match m self with
    | (Returns a, self') => f a self'
    | (Raises e, self') => (Raises e, self')
    end.

Definition lift {A} (o : outcome A) : M A := fun self => (o, self).

Definition get_similarities : M (option (list R)) :=
  fun self => (Returns (similarities self), self).

Definition get_threshold : M (option R) :=
  fun self => (Returns (threshold self), self).

Definition set_similarities (v : list R) : M unit :=
  fun self =>
    (Returns tt, {| similarities := Some v; threshold := threshold self |}).

Definition set_threshold (t : R) : M unit :=
  fun self =>
    (Returns tt, {| similarities := similarities self; threshold := Some t |}).

Declare Scope selector_scope.
Delimit Scope selector_scope with sel.
Notation "x <- m ;; k" := (bind m (fun x => k))
  (at level 100, m at next level, right associativity) : selector_scope.
Notation "m ;;; k" := (bind m (fun _ => k))
  (at level 100, right associativity) : selector_scope.

(** The value a call returned, and the selector it left behind. *)
Definition result {A} (r : outcome A * PaperSelector) : outcome A := fst r.
Definition after {A} (r : outcome A * PaperSelector) : PaperSelector := snd r.

(** ** numpy *)

Module Numpy.

(** A 2-D array: [shape1] columns, one list per row ([shape0] is the
    number of rows).  Every row of a numpy array has [shape1] entries,
    see [well_shaped]. *)
Record array2d : Type := mkArray2d {
  shape1 : nat;
  rows : list (list R)
}.

Definition shape0 (a : array2d) : nat := length (rows a).

Inductive ndarray : Type :=
| Array1D (v : list R)
| Array2D (a : array2d).

Definition well_shaped (a : array2d) : Prop :=
  Forall (fun r => length r = shape1 a) (rows a).

Definition ndim (a : ndarray) : nat :=
  match a with Array1D _ => 1%nat | Array2D _ => 2%nat end.

(** [a.reshape(1, -1)] *)
Definition reshape_1_m1 (a : ndarray) : array2d :=
  match a with
  | Array1D v => {| shape1 := length v; rows := [v] |}
  | Array2D m =>
      {| shape1 := (shape0 m * shape1 m)%nat; rows := [concat (rows m)] |}
  end.

(** [a.flatten()], row-major *)
Definition flatten (a : array2d) : list R := concat (rows a).

(** [np.sum] *)
Definition np_sum (a : list R) : R := fold_right Rplus 0 a.

(** [np.mean].  On an empty array numpy's [mean], [std], [median] and
    [percentile] give [nan], which [R] does not have: the values of the
    model there carry no meaning, and the statements about them below
    are for non-empty arrays. *)
Definition np_mean (a : list R) : R := np_sum a / INR (length a).

(** [np.var] with [ddof=0]: the mean of [abs(x - x.mean())**2]. *)
Definition np_var (a : list R) : R :=
  let arrmean := np_mean a in
  np_mean (map (fun x => Rsqr (Rabs (x - arrmean))) a).

(** [np.std] with [ddof=0] *)
Definition np_std (a : list R) : R := sqrt (np_var a).

Fixpoint insert (x : R) (l : list R) : list R :=
  match l with
  | [] => [x]
  | y :: l' => if Rle_dec x y then x :: l else y :: insert x l'
  end.

(** [np.sort], ascending *)
Definition np_sort (a : list R) : list R := fold_right insert [] a.

(** [np.median]: the mean of the middle element of the sorted array,
    or of the two middle elements when the length is even. *)
Definition np_median (a : list R) : R :=
  let part := np_sort a in
  let n := length a in
  let index := (n / 2)%nat in
  if Nat.odd n
  then np_mean [nth index part 0]
  else np_mean [nth (index - 1) part 0; nth index part 0].

Definition lerp (a b t : R) : R := a + (b - a) * t.

(** [np.percentile(a, q)] with the default method ["linear"], for an
    integer [q] in [0, 100]: the virtual index is [(n - 1) * q / 100],
    the result interpolates between the sorted entries around it. *)
Definition np_percentile (a : list R) (q : nat) : R :=
  let arr := np_sort a in
  let n := length a in
  let scaled := ((n - 1) * q)%nat in
  let previous_index := (scaled / 100)%nat in
  let next_index := Nat.min (previous_index + 1) (n - 1) in
  let gamma := INR (scaled mod 100) / 100 in
  lerp (nth previous_index arr 0) (nth next_index arr 0) gamma.

(** [np.min] and [np.max] raise on an empty array. *)
Definition np_min (a : list R) : outcome R :=
  match a with
  | [] => Raises ZeroSizeReduction
  | x :: l => Returns (fold_left Rmin l x)
  end.

Definition np_max (a : list R) : outcome R :=
  match a with
  | [] => Raises ZeroSizeReduction
  | x :: l => Returns (fold_left Rmax l x)
  end.

(** [a >= t], elementwise *)
Definition ge_elementwise (a : list R) (t : R) : list bool :=
  map (fun x => if Rge_dec x t then true else false) a.

(** [np.sum] of a boolean array: the number of [True] entries. *)
Definition np_sum_bool (a : list bool) : Z :=
  fold_right (fun (b : bool) acc => ((if b then 1 else 0) + acc)%Z) 0%Z a.

(** [np.dot] of two vectors of the same length *)
Definition dot (x y : list R) : R :=
  np_sum (map (fun p => fst p * snd p) (combine x y)).

End Numpy.
Import Numpy.

(** ** scikit-learn: [sklearn.metrics.pairwise.cosine_similarity] *)

Module Sklearn.

(** [check_array] with the defaults of [check_pairwise_arrays]: a 2-D
    array with at least one sample and one feature. *)
Definition check_array (a : ndarray) : outcome array2d :=
  match a with
  | Array1D _ => Raises Expected2DArray
  | Array2D m =>
      if (shape0 m <? 1)%nat then Raises FoundArrayWithNoSamples
      else if (shape1 m <? 1)%nat then Raises FoundArrayWithNoFeatures
      else Returns m
  end.

Definition check_pairwise_arrays (X Y : ndarray)
  : outcome (array2d * array2d) :=
  match check_array X with
  | Raises e => Raises e
  | Returns X' =>
      match check_array Y with
      | Raises e => Raises e
      | Returns Y' =>
          if negb (shape1 X' =? shape1 Y')%nat
          then Raises (IncompatibleDimension (shape1 X') (shape1 Y'))
          else Returns (X', Y')
      end
  end.

(** [row_norms]: the Euclidean norm of one row *)
Definition row_norm (x : list R) : R := sqrt (dot x x).

(** [_handle_zeros_in_scale]: a zero norm is replaced by 1.  Recent
    versions of scikit-learn also replace a norm below ten machine
    epsilons of the array's type; over [R], which has no rounding, only
    the zero norm is replaced. *)
Definition handle_zeros_in_scale (scale : R) : R :=
  if Req_dec_T scale 0 then 1 else scale.

(** [normalize(X, norm="l2")], one row *)
Definition normalize_row (x : list R) : list R :=
  let norm := handle_zeros_in_scale (row_norm x) in
  map (fun v => v / norm) x.

Definition normalize (X : array2d) : array2d :=
  {| shape1 := shape1 X; rows := map normalize_row (rows X) |}.

(** [X_normalized @ Y_normalized.T] *)
Definition matmul_transpose (X Y : array2d) : array2d :=
  {| shape1 := shape0 Y;
     rows := map (fun x => map (fun y => dot x y) (rows Y)) (rows X) |}.

Definition cosine_similarity (X Y : ndarray) : outcome array2d :=
  match check_pairwise_arrays X Y with
  | Raises e => Raises e
  | Returns (X', Y') =>
      Returns (matmul_transpose (normalize X') (normalize Y'))
  end.

End Sklearn.
Import Sklearn.

(** ** PaperSelector *)

Open Scope selector_scope.

(** [PaperSelector.compute_similarities] *)
Definition compute_similarities (paper_embeddings reference_embedding : ndarray)
  : M (list R) :=
  let reference_embedding :=
    if (ndim reference_embedding =? 1)%nat
    then Array2D (reshape_1_m1 reference_embedding)
    else reference_embedding in
  sims <- lift (cosine_similarity paper_embeddings reference_embedding) ;;
  set_similarities (flatten sims) ;;;
  ret (flatten sims).

(** [PaperSelector.compute_threshold]; the default of [method] is
    ["mean_2std"], that of [custom_threshold] is [None]. *)
Definition compute_threshold (method : string) (custom_threshold : option R)
  : M R :=
  sims <- get_similarities ;;
  match sims with
  | None => raise MustComputeSimilaritiesFirst
  | Some sims =>
      th <- (if (method =? "custom")%string then
               match custom_threshold with
               | None => raise CustomThresholdNotProvided
               | Some c => ret c
               end
             else if (method =? "mean_2std")%string then
               let mean := np_mean sims in
               let std := np_std sims in
               ret (mean + 2 * std)
             else if (method =? "mean_1std")%string then
               let mean := np_mean sims in
               let std := np_std sims in
               ret (mean + 1 * std)
             else if (method =? "median")%string then
               ret (np_median sims)
             else if (method =? "percentile_75")%string then
               ret (np_percentile sims 75)
             else if (method =? "percentile_90")%string then
               ret (np_percentile sims 90)
             else raise (UnknownMethod method)) ;;
      set_threshold th ;;;
      ret th
  end.

(** [PaperSelector.select_papers]; the default of [threshold] is [None]. *)
Definition select_papers (threshold : option R) : M (list bool) :=
  sims <- get_similarities ;;
  match sims with
  | None => raise MustComputeSimilaritiesFirst
  | Some sims =>
      match threshold with
      | Some t => set_threshold t
      | None =>
          current <- get_threshold ;;
          match current with
          | None => compute_threshold "mean_2std" None ;;; ret tt
          | Some _ => ret tt
          end
      end ;;;
      current <- get_threshold ;;
      match current with
      | Some t => ret (ge_elementwise sims t)
      | None => raise UnsupportedOperand
      end
  end.

(** A value of the statistics dictionary: a Python [int] or [float]. *)
Inductive value : Type :=
| VInt (z : Z)
| VFloat (x : R).

(** [PaperSelector.get_statistics]; the dictionary is keyed by the
    source's strings. *)
Definition get_statistics : M (gmap string value) :=
  sims <- get_similarities ;;
  match sims with
  | None => raise MustComputeSimilaritiesFirst
  | Some sims =>
      minimum <- lift (np_min sims) ;;
      maximum <- lift (np_max sims) ;;
      let stats : gmap string value :=
        <["q95" := VFloat (np_percentile sims 95)]>
        (<["q90" := VFloat (np_percentile sims 90)]>
        (<["q75" := VFloat (np_percentile sims 75)]>
        (<["q25" := VFloat (np_percentile sims 25)]>
        (<["max" := VFloat maximum]>
        (<["min" := VFloat minimum]>
        (<["median" := VFloat (np_median sims)]>
        (<["std" := VFloat (np_std sims)]>
        (<["mean" := VFloat (np_mean sims)]>
        (<["count" := VInt (Z.of_nat (length sims))]> ∅))))))))) in
      current <- get_threshold ;;
      match current with
      | Some t =>
          let selected_count := np_sum_bool (ge_elementwise sims t) in
          ret (<["selected_percentage" :=
                   VFloat (100 * IZR selected_count / INR (length sims))]>
               (<["selected_count" := VInt selected_count]>
               (<["threshold" := VFloat t]> stats)))
      | None => ret stats
      end
  end.

Close Scope selector_scope.

(** ** Statistics of a score vector

    The quantities of the specification, stated without reference to how
    numpy computes them; the lemmas below show that the numpy routines
    compute them. *)

(** [m] is the arithmetic mean of [s]. *)
Definition is_mean (s : list R) (m : R) : Prop :=
  m * INR (length s) = np_sum s.

(** [sd] is the population standard deviation of [s]: the non-negative
    root of the sum of squared deviations from the mean, divided by [n]. *)
Definition is_population_std (s : list R) (sd : R) : Prop :=
  0 <= sd /\
  exists m, is_mean s m /\
    sd * sd * INR (length s) = np_sum (map (fun x => (x - m) * (x - m)) s).

Definition ascending (a : list R) : Prop :=
  forall i j, (i <= j < length a)%nat -> nth i a 0 <= nth j a 0.

(** [a] is [s] in ascending order. *)
Definition is_sorted_copy (s a : list R) : Prop :=
  Permutation a s /\ ascending a.

(** [v] is the median of [s]. *)
Definition is_median (s : list R) (v : R) : Prop :=
  exists a, is_sorted_copy s a /\
    let n := length s in
    if Nat.odd n
    then v = nth (n / 2) a 0
    else 2 * v = nth (n / 2 - 1) a 0 + nth (n / 2) a 0.

(** [v] is the [q]-th percentile of [s] by linear interpolation: the
    position [(n - 1) * q / 100] splits into a whole part [k] and a
    fraction [g], and [v] lies at fraction [g] between the [k]-th and
    the next entry of the sorted scores. *)
Definition is_percentile (q : nat) (s : list R) (v : R) : Prop :=
  exists a, is_sorted_copy s a /\
    exists (k : nat) (g : R),
      INR (length s - 1) * INR q = 100 * (INR k + g) /\
      0 <= g < 1 /\
      v = nth k a 0 + g * (nth (k + 1) a 0 - nth k a 0).

Definition is_minimum (s : list R) (v : R) : Prop :=
  In v s /\ forall x, In x s -> v <= x.

Definition is_maximum (s : list R) (v : R) : Prop :=
  In v s /\ forall x, In x s -> x <= v.

(** The number of scores at or above [t]. *)
Definition count_selected (s : list R) (t : R) : nat :=
  length (List.filter (fun x => if Rge_dec x t then true else false) s).

(** A mask [mask] selects from [s] exactly the scores at or above [t],
    position by position. *)
Definition is_selection_mask (s : list R) (t : R) (mask : list bool) : Prop :=
  length mask = length s /\
  forall i x, s !! i = Some x -> (mask !! i = Some true <-> x >= t) /\
                                 (mask !! i = Some false <-> x < t).

(** The selector with its threshold replaced by [t]. *)
Definition with_threshold (self : PaperSelector) (t : R) : PaperSelector :=
  {| similarities := similarities self; threshold := Some t |}.

(** The selector a successful scoring call leaves behind. *)
Definition scored (self : PaperSelector) (s : list R) : PaperSelector :=
  {| similarities := Some s; threshold := threshold self |}.

(** The method names that [compute_threshold] recognises, as its
    docstring lists them. *)
Definition recognized_methods : list string :=
  ["mean_2std"; "mean_1std"; "median"; "percentile_75"; "percentile_90";
   "custom"]%string.

(** The entries every statistics dictionary has. *)
Definition distribution_fields
           (stats : gmap string value) (sims : list R) (lo hi : R) : Prop :=
  stats !! "count"%string = Some (VInt (Z.of_nat (length sims))) /\
  stats !! "mean"%string = Some (VFloat (np_mean sims)) /\
  stats !! "std"%string = Some (VFloat (np_std sims)) /\
  stats !! "median"%string = Some (VFloat (np_median sims)) /\
  stats !! "min"%string = Some (VFloat lo) /\
  stats !! "max"%string = Some (VFloat hi) /\
  stats !! "q25"%string = Some (VFloat (np_percentile sims 25)) /\
  stats !! "q75"%string = Some (VFloat (np_percentile sims 75)) /\
  stats !! "q90"%string = Some (VFloat (np_percentile sims 90)) /\
  stats !! "q95"%string = Some (VFloat (np_percentile sims 95)).

(** The entries that depend on the stored threshold. *)
Definition threshold_fields
           (stats : gmap string value) (sims : list R) (th : option R) : Prop :=
  match th with
  | None =>
      stats !! "threshold"%string = None /\
      stats !! "selected_count"%string = None /\
      stats !! "selected_percentage"%string = None
  | Some t =>
      let selected_count := np_sum_bool (ge_elementwise sims t) in
      stats !! "threshold"%string = Some (VFloat t) /\
      stats !! "selected_count"%string = Some (VInt selected_count) /\
      stats !! "selected_percentage"%string
      = Some (VFloat (100 * IZR selected_count / INR (length sims)))
  end.

(** The selectors a caller can obtain: a fresh one, and whatever a method
    call leaves behind, whether it returned or raised. *)
Inductive reachable : PaperSelector -> Prop :=
| reachable_init : reachable init
| reachable_compute_similarities self papers reference :
    reachable self ->
    reachable (after (compute_similarities papers reference self))
| reachable_compute_threshold self method custom_threshold :
    reachable self ->
    reachable (after (compute_threshold method custom_threshold self))
| reachable_select_papers self t :
    reachable self -> reachable (after (select_papers t self))
| reachable_get_statistics self :
    reachable self -> reachable (after (get_statistics self)).

(** ** The command line's use of the selector ([main.py], [main])

    Steps 8 and 9 of [main]: a threshold given with [-t] is stored through
    the ["custom"] method, otherwise the method of [--threshold-method] is
    run; the papers are then selected with the value obtained, and
    counted.  The web handler [process_papers] does the same with the
    fields of its request. *)
Definition determine_threshold
           (args_threshold : option R) (args_threshold_method : string)
  : M R :=
  match args_threshold with
  | Some t => compute_threshold "custom" (Some t)
  | None => compute_threshold args_threshold_method None
  end.

Definition threshold_and_selection
           (args_threshold : option R) (args_threshold_method : string)
  : M (R * list bool * Z) :=
  (threshold <- determine_threshold args_threshold args_threshold_method ;;
   selected <- select_papers (Some threshold) ;;
   let n_selected := np_sum_bool selected in
   ret (threshold, selected, n_selected))%sel.

(** ** Saving the selection ([src/utils.py], [save_selected_papers])

    A DataFrame is the list of its rows; [Row] is whatever a row of the
    Zotero export holds, and [nan_row] is the row whose cells are all
    missing.  The function attaches the scores as the column
    [similarity_score], keeps the rows whose mask entry is true, sorts
    them by score, highest first, and writes them: the model returns the
    rows written, each with its score. *)
Inductive pandas_error : Type :=
| LengthOfValuesMismatch (n_values n_index : nat)
    (* ValueError: Length of values does not match length of index *)
| ItemWrongLength (n_item n_index : nat).
    (* boolean indexer: Item wrong length *)

Section DataFrame.

Variable Row : Type.
Variable nan_row : Row.

(** [df['similarity_score'] = values].  A frame that has no rows takes
    its index from the values: it grows to one row per value, the cells
    of its other columns missing.  A frame that has rows wants one value
    per row, and pandas raises otherwise. *)
Definition assign_column (df : list Row) (values : list R)
  : pandas_error + list (Row * R) :=
  match df with
  | [] => inr (map (fun v => (nan_row, v)) values)
  | _ :: _ =>
      if (length values =? length df)%nat
      then inr (combine df values)
      else inl (LengthOfValuesMismatch (length values) (length df))
  end.

(** [df[mask]] for a boolean array [mask]: pandas raises unless the mask
    has one entry per row. *)
Definition boolean_index (df : list (Row * R)) (mask : list bool)
  : pandas_error + list (Row * R) :=
  if (length mask =? length df)%nat
  then inr (map fst (List.filter snd (combine df mask)))
  else inl (ItemWrongLength (length mask) (length df)).

Fixpoint insert_descending (p : Row * R) (l : list (Row * R))
  : list (Row * R) :=
  match l with
  | [] => [p]
  | q :: l' =>
      if Rle_dec (snd q) (snd p) then p :: l else q :: insert_descending p l'
  end.

(** [df.sort_values('similarity_score', ascending=False)]; the order
    pandas gives to rows of equal score is not fixed by its
    documentation, and nothing below depends on it. *)
Definition sort_values_descending (df : list (Row * R)) : list (Row * R) :=
  fold_right insert_descending [] df.

Definition save_selected_papers
           (df : list Row) (similarities : list R) (selected : list bool)
  : pandas_error + list (Row * R) :=
  match assign_column df similarities with
  | inl e => inl e
  | inr df_output =>
      match boolean_index df_output selected with
      | inl e => inl e
      | inr df_selected => inr (sort_values_descending df_selected)
      end
  end.

End DataFrame.

(** ** Python strings and cells

    A Python [str] is modelled by a [string] whose characters are the
    code points below 256; the character classes below are Python's on
    that range.  A cell of a DataFrame read from CSV is a text or the
    missing value [nan]; numeric cells are not modelled. *)

Module Python.

Definition in_range (lo hi : nat) (c : ascii) : bool :=
  let n := nat_of_ascii c in ((lo <=? n) && (n <=? hi))%nat.

(** [c.isspace()]: tab to carriage return, the separators 28 to 31, the
    space, NEL and the no-break space. *)
Definition isspace (c : ascii) : bool :=
  in_range 9 13 c || in_range 28 32 c || in_range 133 133 c
  || in_range 160 160 c.

(** the regular expression class [\d] *)
Definition isdigit (c : ascii) : bool := in_range 48 57 c.

(** the regular expression class [[a-z]] *)
Definition is_ascii_lower (c : ascii) : bool := in_range 97 122 c.

(** the regular expression class [[a-zA-Z]] *)
Definition is_ascii_letter (c : ascii) : bool :=
  in_range 65 90 c || in_range 97 122 c.

Definition lower_char (c : ascii) : ascii :=
  let n := nat_of_ascii c in
  if in_range 65 90 c || (in_range 192 222 c && negb (n =? 215)%nat)
  then ascii_of_nat (n + 32)
  else c.

Fixpoint str_map (f : ascii -> ascii) (s : string) : string :=
  match s with
  | EmptyString => EmptyString
  | String c s' => String (f c) (str_map f s')
  end.

(** [s.lower()] *)
Definition str_lower (s : string) : string := str_map lower_char s.

(** [re.sub('[^...]', '', s)]: the characters of [s] in the class *)
Fixpoint str_filter (keep : ascii -> bool) (s : string) : string :=
  match s with
  | EmptyString => EmptyString
  | String c s' =>
      if keep c then String c (str_filter keep s') else str_filter keep s'
  end.

(** [s.replace(old, new)] for a one-character [old] *)
Fixpoint str_replace (old : ascii) (new : string) (s : string) : string :=
  match s with
  | EmptyString => EmptyString
  | String c s' =>
      (if Ascii.eqb c old then new else String c EmptyString)
      +:+ str_replace old new s'
  end.

(** [c in s] for a one-character [c] *)
Fixpoint str_contains (c : ascii) (s : string) : bool :=
  match s with
  | EmptyString => false
  | String d s' => Ascii.eqb d c || str_contains c s'
  end.

Definition nonempty (s : string) : bool :=
  match s with EmptyString => false | String _ _ => true end.

(** [s.split()]: the maximal runs of non-whitespace characters.  [word]
    is the run being read. *)
Fixpoint split_from (word : string) (s : string) : list string :=
  match s with
  | EmptyString => if nonempty word then [word] else []
  | String c s' =>
      if isspace c
      then (if nonempty word then word :: split_from EmptyString s'
            else split_from EmptyString s')
      else split_from (word +:+ String c EmptyString) s'
  end.

Definition str_split (s : string) : list string := split_from EmptyString s.

(** [sep.join(parts)] *)
Definition str_join (sep : string) (parts : list string) : string :=
  String.concat sep parts.

Fixpoint str_lstrip (s : string) : string :=
  match s with
  | EmptyString => EmptyString
  | String c s' => if isspace c then str_lstrip s' else s
  end.

Fixpoint str_rstrip (s : string) : string :=
  match s with
  | EmptyString => EmptyString
  | String c s' =>
      match str_rstrip s' with
      | EmptyString => if isspace c then EmptyString else String c EmptyString
      | rest => String c rest
      end
  end.

(** [s.strip()] *)
Definition str_strip (s : string) : string := str_rstrip (str_lstrip s).

(** [s.split(sep)[0]] for a one-character [sep] *)
Fixpoint before_first (sep : ascii) (s : string) : string :=
  match s with
  | EmptyString => EmptyString
  | String c s' =>
      if Ascii.eqb c sep then EmptyString else String c (before_first sep s')
  end.

(** [s.rsplit(sep, 1)] for a one-character [sep]: the text before and
    after the last [sep], or [s] alone when it has none. *)
Fixpoint rsplit1 (sep : ascii) (s : string) : list string :=
  match s with
  | EmptyString => [EmptyString]
  | String c s' =>
      match rsplit1 sep s' with
      | [before; after] => [String c before; after]
      | _ => if Ascii.eqb c sep then [EmptyString; s'] else [s]
      end
  end.

(** [re.search(r'\d{4}', s)]: the leftmost four digits in a row *)
Fixpoint search_4_digits (s : string) : option string :=
  match s with
  | EmptyString => None
  | String a s' =>
      match s' with
      | String b (String c (String d _)) =>
          if isdigit a && isdigit b && isdigit c && isdigit d
          then Some (String a (String b (String c (String d EmptyString))))
          else search_4_digits s'
      | _ => None
      end
  end.

Inductive pyobj : Type :=
| PyNone
| PyNaN
| PyStr (s : string).

(** [str(o)] *)
Definition py_str (o : pyobj) : string :=
  match o with
  | PyNone => "None"
  | PyNaN => "nan"
  | PyStr s => s
  end.

(** [pd.isna(o)] *)
Definition pd_isna (o : pyobj) : bool :=
  match o with PyStr _ => false | _ => true end.

(** the truth value of [o] *)
Definition truthy (o : pyobj) : bool :=
  match o with
  | PyNone => false
  | PyNaN => true
  | PyStr s => nonempty s
  end.

End Python.
Import Python.

(** ** Paper texts ([src/embeddings.py], [combine_title_abstract]) *)

(** [" ".join(s.split())] *)
Definition squeeze (s : string) : string := str_join " " (str_split s).

(** The default of [separator] is [" [SEP] "]. *)
Definition combine_title_abstract (title abstract : pyobj) (separator : string)
  : string :=
  let title := match title with PyNone => EmptyString | _ => py_str title end in
  let abstract :=
    match abstract with PyNone => EmptyString | _ => py_str abstract end in
  let title := squeeze title in
  let abstract := squeeze abstract in
  if nonempty title && nonempty abstract
  then title +:+ separator +:+ abstract
  else if nonempty title then title
  else if nonempty abstract then abstract
  else EmptyString.

Definition default_separator : string := " [SEP] ".

(** ** Columns of the library ([src/utils.py]) *)

Inductive utils_error : Type :=
| CouldNotFindTitleColumn (columns : list string)
    (* ValueError("Could not find title column. Available columns: ...") *)
| CouldNotFindAbstractColumn (columns : list string)
    (* ValueError("Could not find abstract column. Available columns: ...") *)
| DataFrameIsEmpty
    (* ValueError("DataFrame is empty") *)
| AllTitlesAreMissing
    (* ValueError("All titles are missing") *)
| KeyError (column : string).
    (* pandas: df[column] for a column the frame does not have *)

Definition title_candidates : list string :=
  ["Title"; "title"; "Publication Title"]%string.

Definition abstract_candidates : list string :=
  ["Abstract Note"; "Abstract"; "abstract"; "Summary"]%string.

(** [candidate in df.columns] *)
Definition in_columns (columns : list string) (candidate : string) : bool :=
  existsb (String.eqb candidate) columns.

(** [extract_title_abstract_columns], on [df.columns] *)
Definition extract_title_abstract_columns (columns : list string)
  : utils_error + (string * string) :=
  match List.find (in_columns columns) title_candidates with
  | None => inl (CouldNotFindTitleColumn columns)
  | Some title_col =>
      match List.find (in_columns columns) abstract_candidates with
      | None => inl (CouldNotFindAbstractColumn columns)
      | Some abstract_col => inr (title_col, abstract_col)
      end
  end.

(** A DataFrame read from CSV: its column names and its rows, each row
    mapping the column names to cells. *)
Record DataFrame : Type := mkDataFrame {
  df_columns : list string;
  df_rows : list (gmap string pyobj)
}.

(** [df[column]]: the cells of one column *)
Definition get_column (df : DataFrame) (column : string)
  : utils_error + list pyobj :=
  if in_columns (df_columns df) column
  then inr (map (fun row => default PyNaN (row !! column)) (df_rows df))
  else inl (KeyError column).

(** [series.isna().sum()] *)
Definition count_isna (cells : list pyobj) : nat :=
  length (List.filter pd_isna cells).

(** [validate_dataframe]; what it prints is left out. *)
Definition validate_dataframe (df : DataFrame) (title_col abstract_col : string)
  : utils_error + unit :=
  if (length (df_rows df) =? 0)%nat then inl DataFrameIsEmpty
  else
    match get_column df title_col with
    | inl e => inl e
    | inr titles =>
        match get_column df abstract_col with
        | inl e => inl e
        | inr abstracts =>
            let missing_titles := count_isna titles in
            if (missing_titles =? length (df_rows df))%nat
            then inl AllTitlesAreMissing
            else inr tt
        end
    end.

(** ** File names of the web interface ([web/app.py], [allowed_file]) *)

Definition ALLOWED_EXTENSIONS : gset string := {[ "csv"%string ]}.

(** [None] stands for the [IndexError] of [rsplit(...)[1]]. *)
Definition allowed_file (filename : string) : option bool :=
  if str_contains "." filename
  then match rsplit1 "." filename !! 1%nat with
       | Some extension =>
           Some (bool_decide (str_lower extension ∈ ALLOWED_EXTENSIONS))
       | None => None
       end
  else Some false.

(** ** BibTeX export ([csv2bibtex.py]) *)

Definition clean_for_bibtex (text : pyobj) : string :=
  if pd_isna text then EmptyString
  else
    let text := py_str text in
    let text := str_replace "}" "\}" (str_replace "{" "\{" text) in
    let text := str_replace "%" "\%" text in
    let text := str_replace "&" "\&" text in
    let text := str_replace "_" "\_" text in
    text.

Definition type_mapping : gmap string string :=
  (<["manuscript" := "unpublished"]>
   (<["preprint" := "article"]>
    (<["webpage" := "misc"]>
     (<["report" := "techreport"]>
      (<["thesis" := "phdthesis"]>
       (<["booksection" := "incollection"]>
        (<["book" := "book"]>
         (<["conferencepaper" := "inproceedings"]>
          (<["journalarticle" := "article"]> ∅)))))))))%string.

Definition map_item_type (item_type : pyobj) : string :=
  if pd_isna item_type then "article"%string
  else
    let item_type := str_lower (py_str item_type) in
    let item_type := str_filter is_ascii_lower item_type in
    default "article"%string (type_mapping !! item_type).

(** [row.get(key, fallback)] *)
Definition row_get (row : gmap string pyobj) (key : string) (fallback : pyobj)
  : pyobj :=
  default fallback (row !! key).

(** [generate_citation_key]; [index] is the row number, from 1. *)
Definition generate_citation_key (row : gmap string pyobj) (index : nat)
  : string :=
  let author := row_get row "Author" (PyStr EmptyString) in
  let year := row_get row "Publication Year" (row_get row "Year" (PyStr EmptyString)) in
  let last_name :=
    if negb (pd_isna author) && truthy author then
      let author := py_str author in
      let last_name :=
        if str_contains "," author then
          str_strip (before_first "," author)
        else if str_contains ";" author then
          let first_author := str_strip (before_first ";" author) in
          if str_contains "," first_author then
            str_strip (before_first "," first_author)
          else
            let parts := str_split first_author in
            List.last parts "Unknown"%string
        else
          let parts := str_split author in
          List.last parts author in
      str_filter is_ascii_letter last_name
    else "Unknown"%string in
  let key :=
    if negb (pd_isna year) && truthy year then
      let year_str := str_strip (py_str year) in
      let year_str :=
        match search_4_digits year_str with
        | Some year_match => year_match
        | None => year_str
        end in
      last_name +:+ year_str
    else last_name in
  key +:+ "_" +:+ pretty index.

(** ** Words and spacing, for the statements about texts *)

Fixpoint str_forall (p : ascii -> bool) (s : string) : bool :=
  match s with
  | EmptyString => true
  | String c s' => p c && str_forall p s'
  end.

(** A word: at least one character, none of them whitespace. *)
Definition is_word (w : string) : bool :=
  nonempty w && str_forall (fun c => negb (isspace c)) w.

(** [s] has no whitespace but single spaces, none of them at its start
    ([after_space] says that a space was just read) or at its end. *)
Fixpoint single_spaced (after_space : bool) (s : string) : bool :=
  match s with
  | EmptyString => negb after_space
  | String c s' =>
      if isspace c
      then Ascii.eqb c " " && negb after_space && single_spaced true s'
      else single_spaced false s'
  end.

(** A text is blank when it is [None] or holds nothing but whitespace;
    the missing value [nan] is not blank. *)
Definition is_blank (o : pyobj) : bool :=
  match o with
  | PyNone => true
  | PyNaN => false
  | PyStr s => str_forall isspace s
  end.

(** The words of a title or abstract as [combine_title_abstract] reads
    it. *)
Definition words_of (o : pyobj) : list string :=
  match o with
  | PyNone => []
  | _ => str_split (py_str o)
  end.

(** [c] is the first of [candidates] that is a column. *)
Definition first_present (columns candidates : list string) (c : string)
  : Prop :=
  exists earlier later,
    candidates = earlier ++ c :: later /\
    In c columns /\
    Forall (fun y => ~ In y columns) earlier.

(** The characters [clean_for_bibtex] escapes, and the escaping of one
    character: a backslash in front of a special one. *)
Definition bibtex_special (c : ascii) : bool :=
  existsb (Ascii.eqb c) ["{"; "}"; "%"; "&"; "_"]%char.

Definition escape_special (c : ascii) : string :=
  if bibtex_special c then String "\" (String c EmptyString)
  else String c EmptyString.

Fixpoint str_flat_map (g : ascii -> string) (s : string) : string :=
  match s with
  | EmptyString => EmptyString
  | String c s' => g c +:+ str_flat_map g s'
  end.

(** The entry types [map_item_type] can return. *)
Definition bibtex_entry_types : list string :=
  ["article"; "inproceedings"; "book"; "incollection"; "phdthesis";
   "techreport"; "misc"; "unpublished"]%string.

(** ** The reference text ([src/utils.py], [load_reference_text])

    The files that exist, each with the text read from it. *)
Inductive io_error : Type :=
| ReferenceFileNotFound (filepath : string)
    (* FileNotFoundError(f"Reference file not found: {filepath}") *)
| ReferenceFileIsEmpty (filepath : string).
    (* ValueError(f"Reference file is empty: {filepath}") *)

Definition load_reference_text (files : gmap string string) (filepath : string)
  : io_error + string :=
  match files !! filepath with
  | None => inl (ReferenceFileNotFound filepath)
  | Some content =>
      let text := str_strip content in
      if negb (nonempty text) then inl (ReferenceFileIsEmpty filepath)
      else inr text
  end.

(** ** The threshold formula on binary64 numbers

    Lines 70 to 72 and 107 of [selection.py] on float64 scores: [np.mean],
    [np.std], [mean + 2 * std] and [similarities >= threshold], each
    operation rounded to binary64.  numpy adds the entries of an array
    of fewer than eight entries from left to right, which is the order
    used here. *)

Module Binary64.
Import PrimFloat.

Fixpoint float_of_nat (n : nat) : PrimFloat.float :=
  match n with
  | O => 0%float
  | S m => (float_of_nat m + 1)%float
  end.

Definition np_sum (a : list PrimFloat.float) : PrimFloat.float :=
  fold_left PrimFloat.add a 0%float.

Definition np_mean (a : list PrimFloat.float) : PrimFloat.float :=
  (np_sum a / float_of_nat (length a))%float.

(** [np.std] with [ddof=0]: the deviations from the mean, squared,
    averaged, and the square root of that. *)
Definition np_std (a : list PrimFloat.float) : PrimFloat.float :=
  let arrmean := np_mean a in
  let x := map (fun v => (v - arrmean)%float) a in
  let x := map (fun v => (v * v)%float) x in
  PrimFloat.sqrt (np_sum x / float_of_nat (length a))%float.

(** [mean + 2 * std] of the ["mean_2std"] branch *)
Definition mean_2std (a : list PrimFloat.float) : PrimFloat.float :=
  let mean := np_mean a in
  let std := np_std a in
  (mean + 2 * std)%float.

(** [a >= t], elementwise *)
Definition ge_elementwise (a : list PrimFloat.float) (t : PrimFloat.float)
  : list bool :=
  map (fun x => (t <=? x)%float) a.

End Binary64.

(** ** Proof automation *)

Ltac run_selector :=
  unfold compute_similarities, compute_threshold, select_papers,
    get_statistics, bind, ret, raise, lift, get_similarities, get_threshold,
    set_similarities, set_threshold, result, after.

(** Decide the comparisons of a computation on concrete scores. *)
Ltac decide_comparisons :=
  repeat match goal with
         | |- context [Rge_dec ?a ?b] =>
             destruct (Rge_dec a b);
             [try (exfalso; lra) | try (exfalso; lra)]; cbn iota beta
         | |- context [Rle_dec ?a ?b] =>
             destruct (Rle_dec a b);
             [try (exfalso; lra) | try (exfalso; lra)]; cbn iota beta
         end.

(** ** Failure before scores exist, and invalid configuration *)

Lemma unrecognized_method_eqb (method : string) :
  ~ In method recognized_methods ->
  (method =? "custom")%string = false /\
  (method =? "mean_2std")%string = false /\
  (method =? "mean_1std")%string = false /\
  (method =? "median")%string = false /\
  (method =? "percentile_75")%string = false /\
  (method =? "percentile_90")%string = false.
Proof.
  intros Hnot.
  repeat split; apply String.eqb_neq; intros ->; apply Hnot;
    unfold recognized_methods; simpl; tauto.
Qed.

(** C6.  On a selector whose score vector has not been computed
    ([similarities] is [None]), [compute_threshold] (any method, any custom
    value), [select_papers] (with or without a threshold) and
    [get_statistics] each raise the "Must compute similarities first"
    error, and the selector after the failed call is the selector before
    it. *)
Theorem empty_selector_raises_and_is_unchanged (self : PaperSelector) :
  similarities self = None ->
  (forall method custom_threshold,
      compute_threshold method custom_threshold self
      = (Raises MustComputeSimilaritiesFirst, self)) /\
  (forall t, select_papers t self = (Raises MustComputeSimilaritiesFirst, self)) /\
  get_statistics self = (Raises MustComputeSimilaritiesFirst, self).
Proof.
  intros Hnone.
  repeat split; intros; run_selector; rewrite Hnone; reflexivity.
Qed.

Lemma empty_selector_raises_and_is_unchanged_witness :
  similarities init = None /\
  compute_threshold "median" None init
  = (Raises MustComputeSimilaritiesFirst, init) /\
  select_papers (Some (1 / 2)) init
  = (Raises MustComputeSimilaritiesFirst, init) /\
  get_statistics init = (Raises MustComputeSimilaritiesFirst, init).
Proof.
  destruct (empty_selector_raises_and_is_unchanged init eq_refl)
    as (Hct & Hsel & Hstat).
  split; [reflexivity |].
  split; [apply Hct |]. split; [apply Hsel | apply Hstat].
Defined.

(** C7.  With scores set, [compute_threshold("custom")] without a custom
    value raises the "custom_threshold must be provided" error, and a
    method outside the six recognised names raises "Unknown method"; in
    both cases the selector, and so its stored threshold, is unchanged:
    no default takes the place of the missing or unknown configuration. *)
Theorem invalid_configuration_raises (self : PaperSelector) (sims : list R) :
  similarities self = Some sims ->
  compute_threshold "custom" None self
  = (Raises CustomThresholdNotProvided, self) /\
  (forall method custom_threshold,
      ~ In method recognized_methods ->
      compute_threshold method custom_threshold self
      = (Raises (UnknownMethod method), self)).
Proof.
  intros Hsims. split.
  - run_selector. rewrite Hsims. reflexivity.
  - intros method custom Hnot.
    destruct (unrecognized_method_eqb method Hnot)
      as (H1 & H2 & H3 & H4 & H5 & H6).
    run_selector. rewrite Hsims, H1, H2, H3, H4, H5, H6. reflexivity.
Qed.

Lemma invalid_configuration_raises_witness :
  let self := {| similarities := Some [1 / 5; 1 / 2]; threshold := Some (3 / 10) |} in
  compute_threshold "custom" None self
  = (Raises CustomThresholdNotProvided, self) /\
  compute_threshold "mean_3std" (Some 1) self
  = (Raises (UnknownMethod "mean_3std"), self).
Proof.
  intros self.
  destruct (invalid_configuration_raises self [1 / 5; 1 / 2] eq_refl)
    as (Hcustom & Hunknown).
  split; [exact Hcustom |].
  apply Hunknown. unfold recognized_methods. simpl.
  intros H; repeat (destruct H as [H | H]; [discriminate H |]); exact H.
Defined.

(** ** Similarity scoring *)

Section Scoring.

Variable self : PaperSelector.

Lemma length_flatten_matmul_transpose (X Y : array2d) :
  length (flatten (matmul_transpose X Y)) = (shape0 X * shape0 Y)%nat.
Proof.
  unfold flatten, matmul_transpose, shape0. simpl.
  induction (rows X) as [| x xs IH]; simpl; [reflexivity |].
  rewrite length_app, length_map, IH. reflexivity.
Qed.

Lemma shape0_normalize (X : array2d) : shape0 (normalize X) = shape0 X.
Proof. unfold shape0, normalize. simpl. apply length_map. Qed.

(** One reference row: the flattened product has one entry per document. *)
Lemma flatten_single_reference (X : array2d) (v : list R) :
  flatten (matmul_transpose (normalize X)
             (normalize (reshape_1_m1 (Array1D v))))
  = map (fun x => dot (normalize_row x) (normalize_row v)) (rows X).
Proof.
  unfold flatten, matmul_transpose, normalize. simpl.
  induction (rows X) as [| x xs IH]; simpl; [reflexivity |].
  rewrite IH. reflexivity.
Qed.

Lemma check_array_ok (X : array2d) :
  (1 <= shape0 X)%nat -> (1 <= shape1 X)%nat ->
  check_array (Array2D X) = Returns X.
Proof.
  intros H0 H1. unfold check_array.
  destruct (Nat.ltb_spec (shape0 X) 1); [lia |].
  destruct (Nat.ltb_spec (shape1 X) 1); [lia |]. reflexivity.
Qed.

Lemma check_array_inv (a : ndarray) (X : array2d) :
  check_array a = Returns X ->
  a = Array2D X /\ (1 <= shape0 X)%nat /\ (1 <= shape1 X)%nat.
Proof.
  destruct a as [v | m]; simpl; [discriminate |].
  destruct (Nat.ltb_spec (shape0 m) 1); [discriminate |].
  destruct (Nat.ltb_spec (shape1 m) 1); [discriminate |].
  intros [= ->]. repeat split; lia.
Qed.

(** Scoring against a 2-D reference of matching width. *)
Lemma compute_similarities_2d (X Y : array2d) :
  (1 <= shape0 X)%nat -> (1 <= shape1 X)%nat ->
  (1 <= shape0 Y)%nat -> shape1 Y = shape1 X ->
  let s := flatten (matmul_transpose (normalize X) (normalize Y)) in
  compute_similarities (Array2D X) (Array2D Y) self = (Returns s, scored self s).
Proof.
  intros HX0 HX1 HY0 HY1 s.
  unfold compute_similarities, cosine_similarity, check_pairwise_arrays.
  cbn [ndim Nat.eqb].
  rewrite (check_array_ok X), (check_array_ok Y) by lia.
  rewrite HY1, Nat.eqb_refl. reflexivity.
Qed.

(** Scoring against a 1-D reference of matching length. *)
Lemma compute_similarities_1d (X : array2d) (v : list R) :
  (1 <= shape0 X)%nat -> (1 <= shape1 X)%nat -> length v = shape1 X ->
  let s := map (fun x => dot (normalize_row x) (normalize_row v)) (rows X) in
  compute_similarities (Array2D X) (Array1D v) self = (Returns s, scored self s).
Proof.
  intros HX0 HX1 Hv s.
  unfold compute_similarities, cosine_similarity, check_pairwise_arrays.
  cbn [ndim Nat.eqb].
  rewrite (check_array_ok X) by lia.
  rewrite (check_array_ok (reshape_1_m1 (Array1D v)))
    by (unfold shape0; simpl; lia).
  cbn [reshape_1_m1 shape1]. rewrite Hv, Nat.eqb_refl. cbn [negb].
  unfold bind, lift, set_similarities, ret.
  rewrite <- Hv.
  change {| shape1 := length v; rows := [v] |}
    with (reshape_1_m1 (Array1D v)).
  rewrite flatten_single_reference. reflexivity.
Qed.

(** What a call of [compute_similarities] can do to the selector: on
    success it stores the returned vector, which is not empty, and
    keeps the threshold; on failure it changes nothing. *)
Lemma compute_similarities_inv (papers reference : ndarray)
      (r : outcome (list R)) (self' : PaperSelector) :
  compute_similarities papers reference self = (r, self') ->
  match r with
  | Returns s => self' = scored self s /\ s <> []
  | Raises _ => self' = self
  end.
Proof.
  unfold compute_similarities, cosine_similarity, check_pairwise_arrays.
  set (ref2 := if (ndim reference =? 1)%nat then _ else _).
  destruct (check_array papers) as [X | e] eqn:HX;
    [| unfold bind, lift; intros [= <- <-]; reflexivity].
  destruct (check_array ref2) as [Y | e] eqn:HY;
    [| unfold bind, lift; intros [= <- <-]; reflexivity].
  destruct (negb (shape1 X =? shape1 Y)%nat);
    [unfold bind, lift; intros [= <- <-]; reflexivity |].
  unfold bind, lift, set_similarities, ret. intros [= <- <-].
  split; [reflexivity |].
  apply check_array_inv in HX as (_ & HX0 & _).
  apply check_array_inv in HY as (_ & HY0 & _).
  intros Hnil. apply (f_equal (@length R)) in Hnil.
  rewrite length_flatten_matmul_transpose, !shape0_normalize in Hnil.
  simpl in Hnil. nia.
Qed.

End Scoring.

(** C5.  A reference vector whose length differs from the column count of
    the document matrix makes [compute_similarities] raise, and the
    selector is left as it was: no score is computed or stored, and the
    inputs are not truncated or padded to fit.  For a matrix with at least
    one row and one column and a non-empty reference the error is the
    "Incompatible dimension" error, carrying both dimensions. *)
Theorem dimension_mismatch_raises
        (self : PaperSelector) (X : array2d) (v : list R) :
  shape1 X <> length v ->
  (exists e,
      compute_similarities (Array2D X) (Array1D v) self = (Raises e, self)) /\
  ((1 <= shape0 X)%nat -> (1 <= shape1 X)%nat -> (1 <= length v)%nat ->
   compute_similarities (Array2D X) (Array1D v) self
   = (Raises (IncompatibleDimension (shape1 X) (length v)), self)).
Proof.
  intros Hneq.
  assert (Hgen : (1 <= shape0 X)%nat -> (1 <= shape1 X)%nat ->
                 (1 <= length v)%nat ->
                 compute_similarities (Array2D X) (Array1D v) self
                 = (Raises (IncompatibleDimension (shape1 X) (length v)), self)).
  { intros H0 H1 Hv.
    unfold compute_similarities, cosine_similarity, check_pairwise_arrays.
    cbn [ndim Nat.eqb].
    rewrite (check_array_ok X) by lia.
    rewrite (check_array_ok (reshape_1_m1 (Array1D v)))
      by (unfold shape0; simpl; lia).
    cbn [reshape_1_m1 shape1].
    destruct (Nat.eqb_spec (shape1 X) (length v)); [contradiction |].
    reflexivity. }
  split; [| exact Hgen].
  destruct (compute_similarities (Array2D X) (Array1D v) self)
    as [[s | e] self'] eqn:Hrun.
  - exfalso. revert Hrun.
    unfold compute_similarities, cosine_similarity, check_pairwise_arrays.
    cbn [ndim Nat.eqb].
    destruct (check_array (Array2D X)) as [X' | e] eqn:HX;
      [| unfold bind, lift; discriminate].
    apply check_array_inv in HX as ([= <-] & _ & _).
    destruct (check_array _) as [Y' | e] eqn:HY;
      [| unfold bind, lift; discriminate].
    apply check_array_inv in HY as ([= <-] & _ & _).
    cbn [reshape_1_m1 shape1].
    destruct (Nat.eqb_spec (shape1 X) (length v)); [contradiction |].
    unfold bind, lift. discriminate.
  - exists e. f_equal.
    exact (compute_similarities_inv self _ _ _ _ Hrun).
Qed.

Lemma dimension_mismatch_raises_witness :
  let X := {| shape1 := 3; rows := [[1; 0; 2]; [0; 1; 1]] |} in
  compute_similarities (Array2D X) (Array1D [1; 1]) init
  = (Raises (IncompatibleDimension 3 2), init).
Proof.
  intros X.
  assert (Hneq : shape1 X <> length [1; 1]) by (simpl; lia).
  apply (proj2 (dimension_mismatch_raises init X [1; 1] Hneq));
    unfold shape0; simpl; lia.
Defined.

(** C10.  A 2-D reference is passed to scikit-learn as it is.  With [k]
    rows of the documents' width it is accepted, and the stored vector
    has [n * k] entries for [n] documents; that is one score per document
    exactly when [k = 1].  A 1-D reference of the documents' width always
    gives exactly [n] scores. *)
Theorem reference_rows_multiply_scores
        (self : PaperSelector) (X Y : array2d) (v : list R) :
  (1 <= shape0 X)%nat -> (1 <= shape1 X)%nat ->
  (1 <= shape0 Y)%nat -> shape1 Y = shape1 X -> length v = shape1 X ->
  (exists s,
      compute_similarities (Array2D X) (Array2D Y) self
      = (Returns s, scored self s) /\
      length s = (shape0 X * shape0 Y)%nat /\
      (length s = shape0 X <-> shape0 Y = 1%nat)) /\
  (exists s,
      compute_similarities (Array2D X) (Array1D v) self
      = (Returns s, scored self s) /\
      length s = shape0 X).
Proof.
  intros HX0 HX1 HY0 HY1 Hv. split.
  - eexists. split; [apply compute_similarities_2d; assumption |].
    rewrite length_flatten_matmul_transpose, !shape0_normalize.
    split; [reflexivity | nia].
  - eexists. split; [apply compute_similarities_1d; assumption |].
    rewrite length_map. reflexivity.
Qed.

Lemma reference_rows_multiply_scores_witness :
  let X := {| shape1 := 2; rows := [[1; 0]; [0; 1]; [1; 1]] |} in
  let Y := {| shape1 := 2; rows := [[1; 0]; [0; 1]] |} in
  exists s,
    compute_similarities (Array2D X) (Array2D Y) init
    = (Returns s, scored init s) /\
    length s = 6%nat /\ length s <> shape0 X.
Proof.
  intros X Y.
  destruct (reference_rows_multiply_scores init X Y [1; 0])
    as ((s & Hrun & Hlen & Hiff) & _);
    try (unfold shape0; simpl; lia); try reflexivity.
  exists s. split; [exact Hrun |]. split; [exact Hlen |].
  rewrite Hlen. unfold shape0. simpl. lia.
Defined.

(** *** All-zero document rows *)

Lemma dot_scaled_zero_row (row : list R) :
  Forall (fun x => x = 0) row ->
  forall (c : R) (y : list R), dot (map (fun v => v / c) row) y = 0.
Proof.
  induction 1 as [| x xs Hx _ IH]; intros c y.
  - reflexivity.
  - destruct y as [| b ys]; [reflexivity |].
    unfold dot in *. simpl. rewrite IH, Hx. unfold Rdiv. ring.
Qed.

Lemma zero_row_similarity (row y : list R) :
  Forall (fun x => x = 0) row -> dot (normalize_row row) y = 0.
Proof. intros Hzero. apply dot_scaled_zero_row. exact Hzero. Qed.

(** C1, as the code has it.  An all-zero document row is not rejected:
    with a reference of the documents' width the call returns one score
    per document and stores them, and the score of every all-zero row
    is 0. *)
Theorem zero_row_scores_zero
        (self : PaperSelector) (X : array2d) (v : list R)
        (i : nat) (row : list R) :
  (1 <= shape1 X)%nat -> length v = shape1 X ->
  rows X !! i = Some row -> Forall (fun x => x = 0) row ->
  exists s,
    compute_similarities (Array2D X) (Array1D v) self
    = (Returns s, scored self s) /\
    length s = shape0 X /\
    s !! i = Some 0.
Proof.
  intros HX1 Hv Hrow Hzero.
  assert (HX0 : (1 <= shape0 X)%nat).
  { apply lookup_lt_Some in Hrow. unfold shape0. lia. }
  eexists. split; [apply compute_similarities_1d; assumption |].
  split; [apply length_map |].
  rewrite list_lookup_fmap, Hrow. simpl.
  rewrite zero_row_similarity by exact Hzero. reflexivity.
Qed.

Lemma zero_row_scores_zero_witness :
  let X := {| shape1 := 2; rows := [[3; 4]; [0; 0]] |} in
  exists s,
    compute_similarities (Array2D X) (Array1D [1; 0]) init
    = (Returns s, scored init s) /\
    length s = 2%nat /\ s !! 1%nat = Some 0.
Proof.
  intros X.
  apply (zero_row_scores_zero init X [1; 0] 1 [0; 0]).
  - simpl. lia.
  - reflexivity.
  - reflexivity.
  - repeat constructor.
Defined.

(** C1, as the claim has it, fails: the one-document matrix [[0, 0]]
    scored against the reference [1, 0] does not raise; the call returns
    the score vector [0] and stores it. *)
Lemma zero_row_is_not_rejected :
  let X := {| shape1 := 2; rows := [[0; 0]] |} in
  compute_similarities (Array2D X) (Array1D [1; 0]) init
  = (Returns [0], {| similarities := Some [0]; threshold := None |}) /\
  (forall e,
      result (compute_similarities (Array2D X) (Array1D [1; 0]) init)
      <> Raises e).
Proof.
  intros X.
  assert (Hrun : compute_similarities (Array2D X) (Array1D [1; 0]) init
                 = (Returns [0],
                    {| similarities := Some [0]; threshold := None |})).
  { rewrite compute_similarities_1d
      by (try reflexivity; unfold shape0; simpl; lia).
    unfold scored. simpl.
    rewrite (zero_row_similarity [0; 0] (normalize_row [1; 0]))
      by (repeat constructor).
    reflexivity. }
  split; [exact Hrun |].
  intros e. rewrite Hrun. discriminate.
Qed.

(** *** Sorting *)

Lemma insert_perm (x : R) (l : list R) : Permutation (insert x l) (x :: l).
Proof.
  induction l as [| y l IH]; simpl; [reflexivity |].
  destruct (Rle_dec x y); [reflexivity |].
  rewrite IH. apply perm_swap.
Qed.

Lemma np_sort_perm (a : list R) : Permutation (np_sort a) a.
Proof.
  induction a as [| x a IH]; simpl; [reflexivity |].
  rewrite insert_perm. apply perm_skip. exact IH.
Qed.

Lemma length_np_sort (a : list R) : length (np_sort a) = length a.
Proof. apply Permutation_length, np_sort_perm. Qed.

Lemma insert_sorted (x : R) (l : list R) :
  StronglySorted Rle l -> StronglySorted Rle (insert x l).
Proof.
  induction 1 as [| y l Hl IH Hy]; simpl.
  - repeat constructor.
  - destruct (Rle_dec x y) as [Hxy | Hxy].
    + constructor; [constructor; assumption |].
      constructor; [exact Hxy |].
      eapply List.Forall_impl; [| exact Hy]. intros z Hz. simpl in Hz. lra.
    + constructor; [exact IH |].
      rewrite insert_perm.
      constructor; [lra | exact Hy].
Qed.

Lemma np_sort_sorted (a : list R) : StronglySorted Rle (np_sort a).
Proof.
  induction a as [| x a IH]; simpl; [constructor |].
  apply insert_sorted. exact IH.
Qed.

Lemma sorted_ascending (a : list R) : StronglySorted Rle a -> ascending a.
Proof.
  induction 1 as [| x a Ha IH Hx]; intros i j [Hij Hj]; simpl in Hj.
  - lia.
  - destruct j as [| j]; [replace i with 0%nat by lia; simpl; lra |].
    destruct i as [| i]; simpl.
    + rewrite List.Forall_forall in Hx. apply Hx. apply nth_In. lia.
    + apply IH. lia.
Qed.

Lemma np_sort_is_sorted_copy (s : list R) : is_sorted_copy s (np_sort s).
Proof.
  split; [apply np_sort_perm | apply sorted_ascending, np_sort_sorted].
Qed.

(** *** Mean and standard deviation *)

Lemma INR_length_pos (s : list R) : s <> [] -> 0 < INR (length s).
Proof.
  intros Hne. destruct s as [| x s]; [contradiction |].
  apply lt_0_INR. simpl. lia.
Qed.

Lemma np_mean_is_mean (s : list R) : s <> [] -> is_mean s (np_mean s).
Proof.
  intros Hne. pose proof (INR_length_pos s Hne) as Hpos.
  unfold is_mean, np_mean. field. lra.
Qed.

Lemma np_sum_nonneg (l : list R) : Forall (fun x => 0 <= x) l -> 0 <= np_sum l.
Proof. induction 1 as [| x l Hx _ IH]; simpl; lra. Qed.

Lemma np_sum_map_ext (f g : R -> R) (l : list R) :
  (forall x, f x = g x) -> np_sum (map f l) = np_sum (map g l).
Proof.
  intros Hfg. induction l as [| x l IH]; simpl; [reflexivity |].
  rewrite Hfg, IH. reflexivity.
Qed.

Lemma np_var_nonneg (s : list R) : s <> [] -> 0 <= np_var s.
Proof.
  intros Hne. pose proof (INR_length_pos s Hne) as Hpos.
  unfold np_var, np_mean at 1. rewrite length_map.
  apply Rmult_le_pos; [| left; apply Rinv_0_lt_compat; exact Hpos].
  apply np_sum_nonneg, List.Forall_forall. intros y Hy.
  apply in_map_iff in Hy as (x & <- & _). apply Rle_0_sqr.
Qed.

Lemma np_std_is_population_std (s : list R) :
  s <> [] -> is_population_std s (np_std s).
Proof.
  intros Hne. pose proof (INR_length_pos s Hne) as Hpos.
  split; [apply sqrt_pos |].
  exists (np_mean s). split; [apply np_mean_is_mean; exact Hne |].
  unfold np_std. rewrite sqrt_sqrt by (apply np_var_nonneg; exact Hne).
  unfold np_var, np_mean at 1. rewrite length_map.
  rewrite (np_sum_map_ext _ (fun x => (x - np_mean s) * (x - np_mean s))).
  - field. lra.
  - intros x. rewrite <- Rsqr_abs. reflexivity.
Qed.

(** *** Median and percentiles *)

Lemma INR_100 : INR 100 = 100.
Proof. rewrite INR_IZR_INZ. reflexivity. Qed.

Lemma np_median_is_median (s : list R) : is_median s (np_median s).
Proof.
  exists (np_sort s). split; [apply np_sort_is_sorted_copy |].
  unfold np_median. cbv zeta. destruct (Nat.odd (length s)).
  - unfold np_mean. simpl. field.
  - unfold np_mean. simpl. field.
Qed.

Lemma lerp_fraction (a b t : R) : lerp a b t = a + t * (b - a).
Proof. unfold lerp. ring. Qed.

Lemma lerp_0 (a c : R) : lerp a a 0 = a + 0 * (c - a).
Proof. unfold lerp. ring. Qed.

Lemma np_percentile_is_percentile (q : nat) (s : list R) :
  (q <= 100)%nat -> s <> [] -> is_percentile q s (np_percentile s q).
Proof.
  intros Hq Hne.
  exists (np_sort s). split; [apply np_sort_is_sorted_copy |].
  unfold np_percentile. cbv zeta.
  set (n := length s). set (scaled := ((n - 1) * q)%nat).
  pose proof (Nat.div_mod_eq scaled 100) as Hdm.
  pose proof (Nat.mod_upper_bound scaled 100 ltac:(lia)) as Hmod.
  exists (scaled / 100)%nat, (INR (scaled mod 100) / 100).
  split; [| split].
  - rewrite <- mult_INR. fold scaled. rewrite Hdm at 1.
    rewrite plus_INR, mult_INR, INR_100. field.
  - split.
    + apply Rmult_le_pos; [apply pos_INR | lra].
    + apply lt_INR in Hmod. rewrite INR_100 in Hmod. lra.
  - destruct (Nat.le_gt_cases (scaled / 100 + 1) (n - 1)) as [Hin | Hout].
    + rewrite Nat.min_l by exact Hin. apply lerp_fraction.
    + assert (Hbound : (scaled <= (n - 1) * 100)%nat)
        by (unfold scaled; nia).
      assert (Hk : (scaled / 100 = n - 1)%nat) by lia.
      assert (Hzero : (scaled mod 100 = 0)%nat) by lia.
      rewrite Nat.min_r by lia. rewrite Hk, Hzero.
      replace (INR 0 / 100) with 0 by (simpl; field). apply lerp_0.
Qed.

(** *** Minimum and maximum *)

Lemma fold_left_Rmin_spec (l : list R) (x : R) :
  In (fold_left Rmin l x) (x :: l) /\
  forall y, In y (x :: l) -> fold_left Rmin l x <= y.
Proof.
  revert x. induction l as [| z l IH]; intros x; simpl.
  - split; [left; reflexivity |]. intros y [<- | []]. lra.
  - destruct (IH (Rmin x z)) as (Hin & Hle). split.
    + destruct Hin as [Heq | Hin]; [| right; right; exact Hin].
      rewrite <- Heq. unfold Rmin. destruct (Rle_dec x z); tauto.
    + intros y Hy.
      assert (Hxz : fold_left Rmin l (Rmin x z) <= Rmin x z)
        by (apply Hle; left; reflexivity).
      destruct Hy as [<- | [<- | Hy]].
      * pose proof (Rmin_l x z). lra.
      * pose proof (Rmin_r x z). lra.
      * apply Hle. right. exact Hy.
Qed.

Lemma fold_left_Rmax_spec (l : list R) (x : R) :
  In (fold_left Rmax l x) (x :: l) /\
  forall y, In y (x :: l) -> y <= fold_left Rmax l x.
Proof.
  revert x. induction l as [| z l IH]; intros x; simpl.
  - split; [left; reflexivity |]. intros y [<- | []]. lra.
  - destruct (IH (Rmax x z)) as (Hin & Hle). split.
    + destruct Hin as [Heq | Hin]; [| right; right; exact Hin].
      rewrite <- Heq. unfold Rmax. destruct (Rle_dec x z); tauto.
    + intros y Hy.
      assert (Hxz : Rmax x z <= fold_left Rmax l (Rmax x z))
        by (apply Hle; left; reflexivity).
      destruct Hy as [<- | [<- | Hy]].
      * pose proof (Rmax_l x z). lra.
      * pose proof (Rmax_r x z). lra.
      * apply Hle. right. exact Hy.
Qed.

Lemma np_min_is_minimum (s : list R) :
  s <> [] -> exists v, np_min s = Returns v /\ is_minimum s v.
Proof.
  destruct s as [| x l]; [contradiction |]. intros _.
  eexists. split; [reflexivity |]. apply fold_left_Rmin_spec.
Qed.

Lemma np_max_is_maximum (s : list R) :
  s <> [] -> exists v, np_max s = Returns v /\ is_maximum s v.
Proof.
  destruct s as [| x l]; [contradiction |]. intros _.
  eexists. split; [reflexivity |]. apply fold_left_Rmax_spec.
Qed.

(** ** Threshold policies *)

Lemma compute_threshold_value
      (self : PaperSelector) (sims : list R) (method : string)
      (custom_threshold : option R) (t : R) :
  similarities self = Some sims ->
  In (method, t)
     [("mean_2std"%string, np_mean sims + 2 * np_std sims);
      ("mean_1std"%string, np_mean sims + 1 * np_std sims);
      ("median"%string, np_median sims);
      ("percentile_75"%string, np_percentile sims 75);
      ("percentile_90"%string, np_percentile sims 90)] ->
  compute_threshold method custom_threshold self
  = (Returns t, with_threshold self t).
Proof.
  intros Hsims Hin. run_selector. rewrite Hsims.
  simpl in Hin.
  repeat (destruct Hin as [[= <- <-] | Hin]; [reflexivity |]).
  contradiction.
Qed.

(** C2, as the code has it.  With a non-empty score vector set,
    [compute_threshold] returns the mean plus two (one) population
    standard deviations for ["mean_2std"] (["mean_1std"]), the median for
    ["median"], and the linearly interpolated 75th and 90th percentile
    for ["percentile_75"] and ["percentile_90"]; the returned value is
    stored as the selector's threshold and the scores are kept.  This
    names the quantities computed, in exact arithmetic; the floats the
    code returns carry the rounding of each operation. *)
Theorem threshold_policy_formulas
        (self : PaperSelector) (sims : list R) (custom_threshold : option R) :
  similarities self = Some sims -> sims <> [] ->
  (exists m sd,
      is_mean sims m /\ is_population_std sims sd /\
      compute_threshold "mean_2std" custom_threshold self
      = (Returns (m + 2 * sd), with_threshold self (m + 2 * sd)) /\
      compute_threshold "mean_1std" custom_threshold self
      = (Returns (m + 1 * sd), with_threshold self (m + 1 * sd))) /\
  (exists v,
      is_median sims v /\
      compute_threshold "median" custom_threshold self
      = (Returns v, with_threshold self v)) /\
  (exists v,
      is_percentile 75 sims v /\
      compute_threshold "percentile_75" custom_threshold self
      = (Returns v, with_threshold self v)) /\
  (exists v,
      is_percentile 90 sims v /\
      compute_threshold "percentile_90" custom_threshold self
      = (Returns v, with_threshold self v)).
Proof.
  intros Hsims Hne.
  split; [| split; [| split]].
  - exists (np_mean sims), (np_std sims).
    split; [apply np_mean_is_mean; exact Hne |].
    split; [apply np_std_is_population_std; exact Hne |].
    split; eapply compute_threshold_value; try exact Hsims; simpl; tauto.
  - exists (np_median sims). split; [apply np_median_is_median |].
    eapply compute_threshold_value; [exact Hsims | simpl; tauto].
  - exists (np_percentile sims 75).
    split; [apply np_percentile_is_percentile; [lia | exact Hne] |].
    eapply compute_threshold_value; [exact Hsims | simpl; tauto].
  - exists (np_percentile sims 90).
    split; [apply np_percentile_is_percentile; [lia | exact Hne] |].
    eapply compute_threshold_value; [exact Hsims | simpl; tauto].
Qed.

Lemma threshold_policy_formulas_witness :
  let sims := [0.1; 0.5; 0.9; 0.3; 0.7] in
  let self := {| similarities := Some sims; threshold := None |} in
  exists v,
    is_median sims v /\
    compute_threshold "median" None self = (Returns v, with_threshold self v).
Proof.
  intros sims self.
  assert (Hne : sims <> []) by discriminate.
  destruct (threshold_policy_formulas self sims None eq_refl Hne)
    as (_ & Hmedian & _).
  exact Hmedian.
Defined.

Module Rounding.
Import PrimFloat.
#[local] Set Warnings "-inexact-float".

(** C2, as the claim has it, fails on its own example.  On the scores
    [0.2, 0.2, 0.2] in binary64 the sum 0.2 + 0.2 + 0.2 rounds up, the
    mean is 0.20000000000000004 and not 0.2, the standard deviation is
    2.8e-17 and not 0, and ["mean_2std"] gives 0.2000000000000001: not
    the mean, and above every score, so that selecting against it
    selects nothing. *)
Lemma constant_scores_threshold_is_not_the_mean :
  let sims := [0.2; 0.2; 0.2]%float in
  Binary64.np_mean sims = 0.20000000000000004%float /\
  Binary64.np_std sims = 2.7755575615628914e-17%float /\
  Binary64.mean_2std sims = 0.2000000000000001%float /\
  Binary64.mean_2std sims <> 0.2%float /\
  Binary64.mean_2std sims <> Binary64.np_mean sims /\
  Binary64.ge_elementwise sims (Binary64.mean_2std sims)
  = [false; false; false].
Proof.
  intros sims.
  split; [vm_compute; reflexivity |].
  split; [vm_compute; reflexivity |].
  split; [vm_compute; reflexivity |].
  split; [| split; [| vm_compute; reflexivity]].
  - intros Heq.
    assert (E : (Binary64.mean_2std sims =? 0.2)%float = (0.2 =? 0.2)%float)
      by (rewrite Heq; reflexivity).
    vm_compute in E. discriminate E.
  - intros Heq.
    assert (E : (Binary64.mean_2std sims =? Binary64.np_mean sims)%float
                = (Binary64.np_mean sims =? Binary64.np_mean sims)%float)
      by (rewrite Heq; reflexivity).
    vm_compute in E. discriminate E.
Qed.

End Rounding.

(** *** The percentile grows with the quantile *)

Lemma lerp_bounds (a b t : R) :
  a <= b -> 0 <= t <= 1 -> a <= lerp a b t <= b.
Proof. intros Hab Ht. unfold lerp. nra. Qed.

Lemma lerp_mono (a b t1 t2 : R) :
  a <= b -> t1 <= t2 -> lerp a b t1 <= lerp a b t2.
Proof. intros Hab Ht. unfold lerp. nra. Qed.

(** Interpolation at position [scaled / 100] of an ascending array. *)
Lemma interpolation_mono (a : list R) (n sc1 sc2 : nat) :
  ascending a -> length a = n -> (1 <= n)%nat ->
  (sc1 <= sc2)%nat -> (sc2 <= (n - 1) * 100)%nat ->
  lerp (nth (sc1 / 100) a 0)
       (nth (Nat.min (sc1 / 100 + 1) (n - 1)) a 0)
       (INR (sc1 mod 100) / 100)
  <= lerp (nth (sc2 / 100) a 0)
          (nth (Nat.min (sc2 / 100 + 1) (n - 1)) a 0)
          (INR (sc2 mod 100) / 100).
Proof.
  intros Hasc Hlen Hn H12 Hmax.
  pose proof (Nat.div_mod_eq sc1 100) as Hdm1.
  pose proof (Nat.div_mod_eq sc2 100) as Hdm2.
  pose proof (Nat.mod_upper_bound sc1 100 ltac:(lia)) as Hr1.
  pose proof (Nat.mod_upper_bound sc2 100 ltac:(lia)) as Hr2.
  set (k1 := (sc1 / 100)%nat) in *. set (k2 := (sc2 / 100)%nat) in *.
  set (r1 := (sc1 mod 100)%nat) in *. set (r2 := (sc2 mod 100)%nat) in *.
  assert (Hg : forall r, (r < 100)%nat -> 0 <= INR r / 100 <= 1).
  { intros r Hr. pose proof (pos_INR r) as Hpos.
    apply lt_INR in Hr. rewrite INR_100 in Hr. lra. }
  assert (Hlo : forall k, (k <= n - 1)%nat ->
                          nth k a 0 <= nth (Nat.min (k + 1) (n - 1)) a 0).
  { intros k Hk. apply Hasc. lia. }
  assert (Hk2 : (k2 <= n - 1)%nat) by lia.
  assert (Hk1 : (k1 <= k2)%nat) by lia.
  destruct (Nat.eq_dec k1 k2) as [Heq | Hneq].
  - rewrite Heq. apply lerp_mono; [apply Hlo; exact Hk2 |].
    assert (Hr : (r1 <= r2)%nat) by lia.
    apply le_INR in Hr. lra.
  - apply Rle_trans with (nth (Nat.min (k1 + 1) (n - 1)) a 0).
    + apply lerp_bounds; [apply Hlo; lia | apply Hg; exact Hr1].
    + apply Rle_trans with (nth k2 a 0).
      * apply Hasc. lia.
      * apply lerp_bounds; [apply Hlo; exact Hk2 | apply Hg; exact Hr2].
Qed.

Lemma np_percentile_mono (s : list R) (q1 q2 : nat) :
  s <> [] -> (q1 <= q2)%nat -> (q2 <= 100)%nat ->
  np_percentile s q1 <= np_percentile s q2.
Proof.
  intros Hne H12 Hq2.
  assert (Hn : (1 <= length s)%nat)
    by (destruct s; [contradiction | simpl; lia]).
  unfold np_percentile. cbv zeta.
  apply interpolation_mono.
  - apply sorted_ascending, np_sort_sorted.
  - apply length_np_sort.
  - exact Hn.
  - apply Nat.mul_le_mono_l. exact H12.
  - apply Nat.mul_le_mono_l. exact Hq2.
Qed.

(** The median is the 50th percentile. *)
Lemma np_median_is_percentile_50 (s : list R) :
  s <> [] -> np_median s = np_percentile s 50.
Proof.
  intros Hne.
  assert (Hn : (1 <= length s)%nat)
    by (destruct s; [contradiction | simpl; lia]).
  unfold np_median, np_percentile. cbv zeta.
  set (n := length s) in *. set (a := np_sort s).
  pose proof (Nat.div_mod_eq n 2) as Hn2.
  pose proof (Nat.mod_upper_bound n 2 ltac:(lia)) as Hn2r.
  pose proof (Nat.div_mod_eq ((n - 1) * 50) 100) as Hdm.
  pose proof (Nat.mod_upper_bound ((n - 1) * 50) 100 ltac:(lia)) as Hr.
  destruct (Nat.odd n) eqn:Hodd.
  - apply Nat.odd_spec in Hodd as [k Hk].
    assert (Hhalf : (n / 2 = k)%nat) by lia.
    assert (Hidx : ((n - 1) * 50 / 100 = k)%nat) by lia.
    assert (Hrem : (((n - 1) * 50) mod 100 = 0)%nat) by lia.
    rewrite Hhalf, Hidx, Hrem. unfold np_mean, lerp. simpl. field.
  - assert (Heven : Nat.even n = true)
      by (rewrite <- Nat.negb_odd, Hodd; reflexivity).
    apply Nat.even_spec in Heven as [k Hk].
    assert (Hhalf : (n / 2 = k)%nat) by lia.
    assert (Hidx : ((n - 1) * 50 / 100 = k - 1)%nat) by lia.
    assert (Hrem : (((n - 1) * 50) mod 100 = 50)%nat) by lia.
    rewrite Hhalf, Hidx, Hrem.
    replace (Nat.min (k - 1 + 1) (n - 1)) with k by lia.
    replace (INR 50) with 50 by (rewrite INR_IZR_INZ; reflexivity).
    unfold np_mean, lerp.
    generalize (nth (k - 1) a 0) (nth k a 0). intros x y. simpl. field.
Qed.

(** C8.  For a non-empty score vector the thresholds of the percentile
    policies are ordered: ["percentile_90"] gives at least the threshold
    of ["percentile_75"], which gives at least that of ["median"]. *)
Theorem percentile_thresholds_ordered
        (self : PaperSelector) (sims : list R) :
  similarities self = Some sims -> sims <> [] ->
  exists t90 t75 t50,
    result (compute_threshold "percentile_90" None self) = Returns t90 /\
    result (compute_threshold "percentile_75" None self) = Returns t75 /\
    result (compute_threshold "median" None self) = Returns t50 /\
    t90 >= t75 /\ t75 >= t50.
Proof.
  intros Hsims Hne.
  exists (np_percentile sims 90), (np_percentile sims 75), (np_median sims).
  repeat split;
    try (erewrite compute_threshold_value;
         [reflexivity | exact Hsims | simpl; tauto]).
  - apply Rle_ge, np_percentile_mono; [exact Hne | lia | lia].
  - rewrite (np_median_is_percentile_50 sims Hne).
    apply Rle_ge, np_percentile_mono; [exact Hne | lia | lia].
Qed.

Lemma percentile_thresholds_ordered_witness :
  let self :=
    {| similarities := Some [0.1; 0.5; 0.9; 0.3; 0.7]; threshold := None |} in
  exists t90 t75 t50,
    result (compute_threshold "percentile_90" None self) = Returns t90 /\
    result (compute_threshold "percentile_75" None self) = Returns t75 /\
    result (compute_threshold "median" None self) = Returns t50 /\
    t90 >= t75 /\ t75 >= t50.
Proof.
  intros self.
  apply (percentile_thresholds_ordered self [0.1; 0.5; 0.9; 0.3; 0.7]).
  - reflexivity.
  - discriminate.
Defined.

(** ** Selection *)

Lemma ge_elementwise_is_selection_mask (s : list R) (t : R) :
  is_selection_mask s t (ge_elementwise s t).
Proof.
  split; [apply length_map |].
  intros i x Hx. unfold ge_elementwise.
  rewrite list_lookup_fmap, Hx. simpl.
  destruct (Rge_dec x t) as [Hge | Hlt].
  - split; split; try reflexivity; try discriminate; intros; try assumption.
    lra.
  - apply Rnot_ge_lt in Hlt.
    split; split; try reflexivity; try discriminate; intros; try assumption.
    lra.
Qed.

Lemma np_sum_bool_ge_elementwise (s : list R) (t : R) :
  np_sum_bool (ge_elementwise s t) = Z.of_nat (count_selected s t).
Proof.
  unfold count_selected, ge_elementwise.
  induction s as [| x s IH]; simpl; [reflexivity |].
  destruct (Rge_dec x t); simpl length; rewrite IH; lia.
Qed.

Lemma select_papers_explicit
      (self : PaperSelector) (sims : list R) (t : R) :
  similarities self = Some sims ->
  select_papers (Some t) self
  = (Returns (ge_elementwise sims t), with_threshold self t).
Proof.
  intros Hsims. unfold with_threshold. run_selector. rewrite Hsims.
  simpl. rewrite Hsims. reflexivity.
Qed.

Lemma select_papers_stored
      (self : PaperSelector) (sims : list R) (t : R) :
  similarities self = Some sims -> threshold self = Some t ->
  select_papers None self = (Returns (ge_elementwise sims t), self).
Proof.
  intros Hsims Ht. run_selector. rewrite Hsims, Ht. simpl. rewrite Ht.
  reflexivity.
Qed.

Lemma select_papers_fallback (self : PaperSelector) (sims : list R) :
  similarities self = Some sims -> threshold self = None ->
  let t := np_mean sims + 2 * np_std sims in
  select_papers None self
  = (Returns (ge_elementwise sims t), with_threshold self t).
Proof.
  intros Hsims Ht t.
  unfold select_papers, bind, get_similarities, get_threshold, ret.
  rewrite Hsims, Ht.
  rewrite (compute_threshold_value self sims "mean_2std" None t Hsims)
    by (simpl; tauto).
  reflexivity.
Qed.

(** ** Distribution statistics *)

Lemma get_statistics_fields (self : PaperSelector) (sims : list R) :
  similarities self = Some sims -> sims <> [] ->
  exists stats lo hi,
    get_statistics self = (Returns stats, self) /\
    np_min sims = Returns lo /\ np_max sims = Returns hi /\
    distribution_fields stats sims lo hi /\
    threshold_fields stats sims (threshold self).
Proof.
  intros Hsims Hne.
  destruct (np_min_is_minimum sims Hne) as (lo & Hlo & _).
  destruct (np_max_is_maximum sims Hne) as (hi & Hhi & _).
  unfold get_statistics, bind, get_similarities, get_threshold, lift, ret.
  rewrite Hsims, Hlo, Hhi.
  destruct (threshold self) as [t |];
    eexists; exists lo, hi;
    (split; [reflexivity |]); (split; [reflexivity |]);
    (split; [reflexivity |]);
    (split; [repeat split; reflexivity | repeat split; reflexivity]).
Qed.

(** C3.  With scores set, [select_papers] returns a mask of the length
    and order of the scores whose entry [i] is true exactly when score
    [i] is at or above the threshold in force.  An explicit threshold
    is stored as the selector's threshold, and a later [get_statistics]
    reports it; without an argument and with no threshold stored, the
    selector runs [compute_threshold("mean_2std")], stores its value and
    selects against it; without an argument and with a threshold stored,
    it selects against the stored one and changes nothing. *)
Theorem select_papers_mask (self : PaperSelector) (sims : list R) :
  similarities self = Some sims ->
  (forall t,
      exists mask,
        select_papers (Some t) self = (Returns mask, with_threshold self t) /\
        is_selection_mask sims t mask /\
        (sims <> [] ->
         exists stats,
           get_statistics (with_threshold self t)
           = (Returns stats, with_threshold self t) /\
           stats !! "threshold"%string = Some (VFloat t))) /\
  (threshold self = None ->
   exists t mask,
     compute_threshold "mean_2std" None self
     = (Returns t, with_threshold self t) /\
     select_papers None self = (Returns mask, with_threshold self t) /\
     is_selection_mask sims t mask) /\
  (forall t,
      threshold self = Some t ->
      exists mask,
        select_papers None self = (Returns mask, self) /\
        is_selection_mask sims t mask).
Proof.
  intros Hsims. split; [| split].
  - intros t. exists (ge_elementwise sims t).
    split; [apply select_papers_explicit; exact Hsims |].
    split; [apply ge_elementwise_is_selection_mask |].
    intros Hne.
    destruct (get_statistics_fields (with_threshold self t) sims Hsims Hne)
      as (stats & lo & hi & Hrun & _ & _ & _ & Hth).
    exists stats. split; [exact Hrun |]. apply Hth.
  - intros Hnone.
    exists (np_mean sims + 2 * np_std sims).
    exists (ge_elementwise sims (np_mean sims + 2 * np_std sims)).
    split; [eapply compute_threshold_value; [exact Hsims | simpl; tauto] |].
    split; [apply select_papers_fallback; assumption |].
    apply ge_elementwise_is_selection_mask.
  - intros t Ht. exists (ge_elementwise sims t).
    split; [apply select_papers_stored; assumption |].
    apply ge_elementwise_is_selection_mask.
Qed.

Lemma select_papers_mask_witness :
  let sims := [0.1; 0.5; 0.9; 0.3; 0.7] in
  let self := {| similarities := Some sims; threshold := None |} in
  exists mask,
    select_papers (Some 0.5) self = (Returns mask, with_threshold self 0.5) /\
    is_selection_mask sims 0.5 mask.
Proof.
  intros sims self.
  destruct (select_papers_mask self sims eq_refl) as (Hexplicit & _ & _).
  destruct (Hexplicit 0.5) as (mask & Hrun & Hmask & _).
  exists mask. split; [exact Hrun | exact Hmask].
Defined.

(** C4.  With a non-empty score vector set, [get_statistics] returns a
    dictionary and leaves the selector as it was.  The dictionary holds
    the count, mean, population standard deviation, median, minimum,
    maximum and the 25th, 75th, 90th and 95th percentiles.  With no
    threshold stored it has no entry for ["threshold"],
    ["selected_count"] or ["selected_percentage"]; with a threshold [t]
    stored it has all three: [t], the number of scores at or above [t]
    (the sum of the mask [select_papers] returns), and 100 times that
    number over the count. *)
Theorem get_statistics_table (self : PaperSelector) (sims : list R) :
  similarities self = Some sims -> sims <> [] ->
  exists stats,
    get_statistics self = (Returns stats, self) /\
    stats !! "count"%string = Some (VInt (Z.of_nat (length sims))) /\
    (exists v, stats !! "mean"%string = Some (VFloat v) /\ is_mean sims v) /\
    (exists v, stats !! "std"%string = Some (VFloat v) /\
               is_population_std sims v) /\
    (exists v, stats !! "median"%string = Some (VFloat v) /\
               is_median sims v) /\
    (exists v, stats !! "min"%string = Some (VFloat v) /\
               is_minimum sims v) /\
    (exists v, stats !! "max"%string = Some (VFloat v) /\
               is_maximum sims v) /\
    (exists v, stats !! "q25"%string = Some (VFloat v) /\
               is_percentile 25 sims v) /\
    (exists v, stats !! "q75"%string = Some (VFloat v) /\
               is_percentile 75 sims v) /\
    (exists v, stats !! "q90"%string = Some (VFloat v) /\
               is_percentile 90 sims v) /\
    (exists v, stats !! "q95"%string = Some (VFloat v) /\
               is_percentile 95 sims v) /\
    (threshold self = None ->
     stats !! "threshold"%string = None /\
     stats !! "selected_count"%string = None /\
     stats !! "selected_percentage"%string = None) /\
    (forall t,
        threshold self = Some t ->
        let selected := count_selected sims t in
        stats !! "threshold"%string = Some (VFloat t) /\
        stats !! "selected_count"%string = Some (VInt (Z.of_nat selected)) /\
        stats !! "selected_percentage"%string
        = Some (VFloat (100 * INR selected / INR (length sims))) /\
        exists mask,
          select_papers None self = (Returns mask, self) /\
          np_sum_bool mask = Z.of_nat selected).
Proof.
  intros Hsims Hne.
  destruct (get_statistics_fields self sims Hsims Hne)
    as (stats & lo & hi & Hrun & Hlo & Hhi & Hdist & Hth).
  destruct Hdist as (Hc & Hm & Hs & Hmed & Hmin & Hmax & H25 & H75 & H90 & H95).
  destruct (np_min_is_minimum sims Hne) as (lo' & Hlo' & Hlospec).
  destruct (np_max_is_maximum sims Hne) as (hi' & Hhi' & Hhispec).
  rewrite Hlo in Hlo'. injection Hlo' as <-.
  rewrite Hhi in Hhi'. injection Hhi' as <-.
  exists stats. split; [exact Hrun |]. split; [exact Hc |].
  split; [eexists; split; [exact Hm | apply np_mean_is_mean; exact Hne] |].
  split; [eexists; split;
          [exact Hs | apply np_std_is_population_std; exact Hne] |].
  split; [eexists; split; [exact Hmed | apply np_median_is_median] |].
  split; [eexists; split; [exact Hmin | exact Hlospec] |].
  split; [eexists; split; [exact Hmax | exact Hhispec] |].
  split; [eexists; split;
          [exact H25 | apply np_percentile_is_percentile; [lia | exact Hne]] |].
  split; [eexists; split;
          [exact H75 | apply np_percentile_is_percentile; [lia | exact Hne]] |].
  split; [eexists; split;
          [exact H90 | apply np_percentile_is_percentile; [lia | exact Hne]] |].
  split; [eexists; split;
          [exact H95 | apply np_percentile_is_percentile; [lia | exact Hne]] |].
  split.
  - intros Hnone. rewrite Hnone in Hth. exact Hth.
  - intros t Ht selected. rewrite Ht in Hth.
    unfold threshold_fields in Hth. cbv zeta in Hth.
    rewrite np_sum_bool_ge_elementwise in Hth.
    rewrite <- INR_IZR_INZ in Hth. fold selected in Hth.
    destruct Hth as (H1 & H2 & H3).
    repeat (split; [assumption |]).
    exists (ge_elementwise sims t).
    split; [apply select_papers_stored; assumption |].
    apply np_sum_bool_ge_elementwise.
Qed.

Lemma count_selected_scenario :
  count_selected [0.1; 0.5; 0.9; 0.3; 0.7] 0.5 = 3%nat.
Proof.
  unfold count_selected. cbn [List.filter].
  decide_comparisons. reflexivity.
Qed.

Lemma get_statistics_table_witness :
  let sims := [0.1; 0.5; 0.9; 0.3; 0.7] in
  let self := {| similarities := Some sims; threshold := Some 0.5 |} in
  exists stats,
    get_statistics self = (Returns stats, self) /\
    stats !! "count"%string = Some (VInt 5) /\
    stats !! "threshold"%string = Some (VFloat 0.5) /\
    stats !! "selected_count"%string = Some (VInt 3) /\
    stats !! "selected_percentage"%string = Some (VFloat 60).
Proof.
  intros sims self.
  assert (Hne : sims <> []) by discriminate.
  destruct (get_statistics_table self sims eq_refl Hne)
    as (stats & Hrun & Hcount & _ & _ & _ & _ & _ & _ & _ & _ & _ & _ & Hset).
  destruct (Hset 0.5 eq_refl) as (Hth & Hsel & Hpct & _).
  unfold sims in Hsel, Hpct. rewrite count_selected_scenario in Hsel, Hpct.
  exists stats. split; [exact Hrun |]. split; [exact Hcount |].
  split; [exact Hth |]. split; [exact Hsel |].
  rewrite Hpct. do 2 f_equal. simpl. field.
Defined.

(** C9.  A successful [compute_similarities] stores the new score vector
    and keeps the stored threshold.  So on a selector that already holds
    a threshold [t], a following [select_papers()] without an argument
    selects the new scores against [t], and [get_statistics] reports [t]
    and counts the new scores at or above it: the threshold is neither
    cleared nor recomputed. *)
Theorem rescoring_keeps_threshold
        (self self' : PaperSelector) (papers reference : ndarray)
        (s : list R) :
  compute_similarities papers reference self = (Returns s, self') ->
  similarities self' = Some s /\
  threshold self' = threshold self /\
  (forall t,
      threshold self = Some t ->
      select_papers None self' = (Returns (ge_elementwise s t), self') /\
      exists stats,
        get_statistics self' = (Returns stats, self') /\
        stats !! "threshold"%string = Some (VFloat t) /\
        stats !! "selected_count"%string
        = Some (VInt (Z.of_nat (count_selected s t)))).
Proof.
  intros Hrun.
  apply compute_similarities_inv in Hrun as (-> & Hne).
  split; [reflexivity |]. split; [reflexivity |].
  intros t Ht.
  split; [apply select_papers_stored; [reflexivity | exact Ht] |].
  destruct (get_statistics_fields (scored self s) s eq_refl Hne)
    as (stats & lo & hi & Hstat & _ & _ & _ & Hth).
  exists stats. split; [exact Hstat |].
  change (threshold (scored self s)) with (threshold self) in Hth.
  rewrite Ht in Hth. unfold threshold_fields in Hth. cbv zeta in Hth.
  rewrite np_sum_bool_ge_elementwise in Hth.
  destruct Hth as (H1 & H2 & _). split; assumption.
Qed.

Lemma rescoring_keeps_threshold_witness :
  let first_batch := {| similarities := Some [0.1; 0.9]; threshold := Some 0.5 |} in
  let X := {| shape1 := 2; rows := [[3; 4]; [0; 0]] |} in
  let s := map (fun x => dot (normalize_row x) (normalize_row [1; 0])) (rows X) in
  let second_batch := {| similarities := Some s; threshold := Some 0.5 |} in
  compute_similarities (Array2D X) (Array1D [1; 0]) first_batch
  = (Returns s, second_batch) /\
  select_papers None second_batch
  = (Returns (ge_elementwise s 0.5), second_batch).
Proof.
  intros first_batch X s second_batch.
  assert (Hrun : compute_similarities (Array2D X) (Array1D [1; 0]) first_batch
                 = (Returns s, second_batch)).
  { apply compute_similarities_1d; try reflexivity; unfold shape0; simpl; lia. }
  split; [exact Hrun |].
  destruct (rescoring_keeps_threshold _ _ _ _ _ Hrun) as (_ & _ & Hkeep).
  destruct (Hkeep 0.5 eq_refl) as (Hsel & _). exact Hsel.
Defined.

(** ** The stored score vector is never empty *)

Lemma compute_threshold_keeps_scores
      (self : PaperSelector) (method : string) (custom_threshold : option R) :
  similarities (after (compute_threshold method custom_threshold self))
  = similarities self.
Proof.
  run_selector.
  destruct (similarities self) as [sims |] eqn:Hsims; [| exact Hsims].
  repeat match goal with
         | |- context [if ?b then _ else _] => destruct b
         end;
    try destruct custom_threshold; simpl; auto.
Qed.

Lemma get_statistics_keeps_selector (self : PaperSelector) :
  after (get_statistics self) = self.
Proof.
  run_selector.
  destruct (similarities self) as [sims |]; [| reflexivity].
  destruct (np_min sims); [| reflexivity].
  destruct (np_max sims); [| reflexivity].
  destruct (threshold self); reflexivity.
Qed.

Lemma select_papers_keeps_scores (self : PaperSelector) (t : option R) :
  similarities (after (select_papers t self)) = similarities self.
Proof.
  destruct (similarities self) as [sims |] eqn:Hsims.
  - destruct t as [t |].
    + rewrite (select_papers_explicit self sims t Hsims). exact Hsims.
    + destruct (threshold self) as [t0 |] eqn:Ht.
      * rewrite (select_papers_stored self sims t0 Hsims Ht). exact Hsims.
      * rewrite (select_papers_fallback self sims Hsims Ht). exact Hsims.
  - run_selector. rewrite Hsims. exact Hsims.
Qed.

Lemma reachable_scores_nonempty (self : PaperSelector) (sims : list R) :
  reachable self -> similarities self = Some sims -> sims <> [].
Proof.
  intros Hreach. revert sims.
  induction Hreach as [| self papers reference _ IH
                       | self method custom _ IH
                       | self t _ IH
                       | self _ IH]; intros sims Hsims.
  - discriminate.
  - destruct (compute_similarities papers reference self)
      as [[s | e] self'] eqn:Hrun;
      pose proof (compute_similarities_inv self _ _ _ _ Hrun) as Hinv;
      unfold after in Hsims; simpl in Hsims.
    + destruct Hinv as (-> & Hne). simpl in Hsims.
      injection Hsims as <-. exact Hne.
    + rewrite Hinv in Hsims. apply IH. exact Hsims.
  - rewrite compute_threshold_keeps_scores in Hsims. apply IH. exact Hsims.
  - rewrite select_papers_keeps_scores in Hsims. apply IH. exact Hsims.
  - rewrite get_statistics_keeps_selector in Hsims. apply IH. exact Hsims.
Qed.

(** ** The scenario of five scores *)

Lemma np_sort_scenario :
  np_sort [0.1; 0.5; 0.9; 0.3; 0.7] = [0.1; 0.3; 0.5; 0.7; 0.9].
Proof.
  unfold np_sort.
  repeat (progress (cbn [fold_right insert]; decide_comparisons)).
  reflexivity.
Qed.

Lemma np_median_scenario : np_median [0.1; 0.5; 0.9; 0.3; 0.7] = 0.5.
Proof.
  unfold np_median. rewrite np_sort_scenario.
  cbn [length]. change (Nat.odd 5) with true. change (5 / 2)%nat with 2%nat.
  cbv iota. unfold np_mean. cbn [nth np_sum fold_right length INR]. lra.
Qed.

Lemma np_percentile_75_scenario :
  np_percentile [0.1; 0.5; 0.9; 0.3; 0.7] 75 = 0.7.
Proof.
  unfold np_percentile. rewrite np_sort_scenario.
  cbn [length]. change ((5 - 1) * 75)%nat with 300%nat.
  change (300 / 100)%nat with 3%nat. change (300 mod 100)%nat with 0%nat.
  cbn [length Nat.sub Nat.add Nat.min nth INR]. unfold lerp. lra.
Qed.

Lemma np_percentile_90_scenario :
  np_percentile [0.1; 0.5; 0.9; 0.3; 0.7] 90 = 0.82.
Proof.
  unfold np_percentile. rewrite np_sort_scenario.
  cbn [length]. change ((5 - 1) * 90)%nat with 360%nat.
  change (360 / 100)%nat with 3%nat. change (360 mod 100)%nat with 60%nat.
  cbn [length Nat.sub Nat.add Nat.min nth].
  replace (INR 60) with 60 by (rewrite INR_IZR_INZ; reflexivity).
  unfold lerp. lra.
Qed.

(** Scores [0.1, 0.5, 0.9, 0.3, 0.7] under the ["median"] policy: the
    threshold is 0.5 and the mask selects the second, third and fifth
    score. *)
Lemma median_scenario :
  let sims := [0.1; 0.5; 0.9; 0.3; 0.7] in
  let self := {| similarities := Some sims; threshold := None |} in
  compute_threshold "median" None self = (Returns 0.5, with_threshold self 0.5)
  /\ select_papers None (with_threshold self 0.5)
     = (Returns [false; true; true; false; true], with_threshold self 0.5).
Proof.
  intros sims self. split.
  - rewrite <- np_median_scenario.
    eapply compute_threshold_value; [reflexivity | simpl; tauto].
  - rewrite (select_papers_stored (with_threshold self 0.5) sims 0.5)
      by reflexivity.
    f_equal. unfold ge_elementwise, sims. cbn [map].
    decide_comparisons. reflexivity.
Qed.

(** ** The quantiles are ordered *)

Lemma length_pos_of_nonempty (s : list R) : s <> [] -> (1 <= length s)%nat.
Proof. destruct s; [contradiction | simpl; lia]. Qed.

Lemma np_percentile_between_members (s : list R) (q : nat) :
  s <> [] -> (q <= 100)%nat ->
  exists x y, In x s /\ In y s /\ x <= np_percentile s q <= y.
Proof.
  intros Hne Hq. pose proof (length_pos_of_nonempty s Hne) as Hn.
  pose proof (np_sort_is_sorted_copy s) as (Hperm & Hasc).
  pose proof (length_np_sort s) as Hlen.
  unfold np_percentile. cbv zeta.
  set (scaled := ((length s - 1) * q)%nat).
  pose proof (Nat.div_mod_eq scaled 100) as Hdm.
  pose proof (Nat.mod_upper_bound scaled 100 ltac:(lia)) as Hmod.
  assert (Hbound : (scaled <= (length s - 1) * 100)%nat)
    by (unfold scaled; nia).
  set (lo := (scaled / 100)%nat) in *.
  set (hi := Nat.min (lo + 1) (length s - 1)).
  assert (Hlo : (lo <= length s - 1)%nat) by lia.
  exists (nth lo (np_sort s) 0), (nth hi (np_sort s) 0).
  split; [| split].
  - apply (Permutation_in _ Hperm), nth_In. lia.
  - apply (Permutation_in _ Hperm), nth_In. unfold hi. lia.
  - apply lerp_bounds.
    + apply Hasc. unfold hi. lia.
    + pose proof (pos_INR (scaled mod 100)) as Hpos.
      apply lt_INR in Hmod. rewrite INR_100 in Hmod. lra.
Qed.

(** X4.  The quantiles of the statistics dictionary are ordered: minimum,
    25th percentile, median, 75th, 90th and 95th percentile, maximum; and
    the standard deviation is not negative. *)
Theorem quantiles_are_ordered (self : PaperSelector) (sims : list R) :
  similarities self = Some sims -> sims <> [] ->
  exists stats lo q25 med q75 q90 q95 hi sd,
    get_statistics self = (Returns stats, self) /\
    stats !! "min"%string = Some (VFloat lo) /\
    stats !! "q25"%string = Some (VFloat q25) /\
    stats !! "median"%string = Some (VFloat med) /\
    stats !! "q75"%string = Some (VFloat q75) /\
    stats !! "q90"%string = Some (VFloat q90) /\
    stats !! "q95"%string = Some (VFloat q95) /\
    stats !! "max"%string = Some (VFloat hi) /\
    stats !! "std"%string = Some (VFloat sd) /\
    lo <= q25 /\ q25 <= med /\ med <= q75 /\ q75 <= q90 /\ q90 <= q95 /\
    q95 <= hi /\ 0 <= sd.
Proof.
  intros Hsims Hne.
  destruct (get_statistics_fields self sims Hsims Hne)
    as (stats & lo & hi & Hrun & Hlo & Hhi & Hdist & _).
  destruct Hdist as (_ & _ & Hs & Hmed & Hmin & Hmax & H25 & H75 & H90 & H95).
  destruct (np_min_is_minimum sims Hne) as (lo' & Hlo' & Hlospec).
  destruct (np_max_is_maximum sims Hne) as (hi' & Hhi' & Hhispec).
  rewrite Hlo in Hlo'. injection Hlo' as <-.
  rewrite Hhi in Hhi'. injection Hhi' as <-.
  exists stats, lo, (np_percentile sims 25), (np_median sims),
    (np_percentile sims 75), (np_percentile sims 90),
    (np_percentile sims 95), hi, (np_std sims).
  repeat (split; [assumption |]).
  rewrite (np_median_is_percentile_50 sims Hne).
  destruct (np_percentile_between_members sims 25 Hne ltac:(lia))
    as (x & _ & Hx & _ & Hxle & _).
  destruct (np_percentile_between_members sims 95 Hne ltac:(lia))
    as (_ & y & _ & Hy & _ & Hyle).
  destruct Hlospec as (_ & Hlo_le). destruct Hhispec as (_ & Hhi_le).
  split; [specialize (Hlo_le x Hx); lra |].
  split; [apply np_percentile_mono; [exact Hne | lia | lia] |].
  split; [apply np_percentile_mono; [exact Hne | lia | lia] |].
  split; [apply np_percentile_mono; [exact Hne | lia | lia] |].
  split; [apply np_percentile_mono; [exact Hne | lia | lia] |].
  split; [specialize (Hhi_le y Hy); lra |].
  apply sqrt_pos.
Qed.

Lemma quantiles_are_ordered_witness :
  let sims := [0.1; 0.5; 0.9; 0.3; 0.7] in
  let self := {| similarities := Some sims; threshold := None |} in
  exists stats lo med hi,
    get_statistics self = (Returns stats, self) /\
    stats !! "min"%string = Some (VFloat lo) /\
    stats !! "median"%string = Some (VFloat med) /\
    stats !! "max"%string = Some (VFloat hi) /\
    lo <= med <= hi.
Proof.
  intros sims self.
  assert (Hne : sims <> []) by discriminate.
  destruct (quantiles_are_ordered self sims eq_refl Hne)
    as (stats & lo & q25 & med & q75 & q90 & q95 & hi & sd & Hrun
        & Hmin & _ & Hmed & _ & _ & _ & Hmax & _
        & H1 & H2 & H3 & H4 & H5 & H6 & _).
  exists stats, lo, med, hi.
  repeat (split; [assumption |]). lra.
Defined.

(** ** Selection as the threshold moves *)

Lemma count_selected_cons (x : R) (s : list R) (t : R) :
  count_selected (x :: s) t
  = ((if Rge_dec x t then 1 else 0) + count_selected s t)%nat.
Proof.
  unfold count_selected. simpl. destruct (Rge_dec x t); reflexivity.
Qed.

Lemma count_selected_le_length (s : list R) (t : R) :
  (count_selected s t <= length s)%nat.
Proof.
  induction s as [| x s IH]; [unfold count_selected; simpl; lia |].
  rewrite count_selected_cons. simpl length.
  destruct (Rge_dec x t); lia.
Qed.

Lemma count_selected_antitone (s : list R) (t1 t2 : R) :
  t1 <= t2 -> (count_selected s t2 <= count_selected s t1)%nat.
Proof.
  intros Hle. induction s as [| x s IH]; [unfold count_selected; simpl; lia |].
  rewrite !count_selected_cons.
  destruct (Rge_dec x t2), (Rge_dec x t1); try lia. exfalso. lra.
Qed.

Lemma count_selected_all (s : list R) (t : R) :
  Forall (fun x => t <= x) s -> count_selected s t = length s.
Proof.
  induction 1 as [| x s Hx _ IH]; [reflexivity |].
  rewrite count_selected_cons, IH. simpl length.
  destruct (Rge_dec x t); [reflexivity | exfalso; lra].
Qed.


Lemma count_selected_perm (a s : list R) (t : R) :
  Permutation a s -> count_selected a t = count_selected s t.
Proof.
  induction 1 as [| x l l' _ IH | x y l | l l' l'' _ IH1 _ IH2].
  - reflexivity.
  - rewrite !count_selected_cons, IH. reflexivity.
  - rewrite !count_selected_cons. lia.
  - congruence.
Qed.

(** In a sorted array, everything from a position whose entry reaches
    [t] onwards is selected. *)
Lemma count_selected_from_index (a : list R) (t : R) :
  StronglySorted Rle a ->
  forall j, (j < length a)%nat -> t <= nth j a 0 ->
            (length a - j <= count_selected a t)%nat.
Proof.
  induction 1 as [| x a Ha IH Hx]; intros j Hj Ht; simpl in Hj; [lia |].
  destruct j as [| j].
  - simpl in Ht. rewrite count_selected_all; [lia |].
    constructor; [exact Ht |].
    eapply List.Forall_impl; [| exact Hx]. intros y Hy. simpl in Hy. lra.
  - simpl in Ht. rewrite count_selected_cons.
    specialize (IH j ltac:(lia) Ht). simpl length. lia.
Qed.

Lemma ge_elementwise_antitone (s : list R) (t1 t2 : R) (i : nat) :
  t1 <= t2 ->
  ge_elementwise s t2 !! i = Some true ->
  ge_elementwise s t1 !! i = Some true.
Proof.
  intros Hle. unfold ge_elementwise. rewrite !list_lookup_fmap.
  destruct (s !! i) as [x |]; simpl; [| discriminate].
  destruct (Rge_dec x t2), (Rge_dec x t1);
    try reflexivity; try discriminate.
  exfalso. lra.
Qed.

(** The steps of [main] on a selector with scores. *)
Lemma threshold_and_selection_value
      (self : PaperSelector) (sims : list R)
      (args_threshold : option R) (method : string) (t : R) :
  similarities self = Some sims ->
  determine_threshold args_threshold method self
  = (Returns t, with_threshold self t) ->
  threshold_and_selection args_threshold method self
  = (Returns (t, ge_elementwise sims t, Z.of_nat (count_selected sims t)),
     with_threshold self t).
Proof.
  intros Hsims Hdet.
  unfold threshold_and_selection, bind. rewrite Hdet.
  rewrite (select_papers_explicit (with_threshold self t) sims t Hsims).
  unfold ret. rewrite np_sum_bool_ge_elementwise. reflexivity.
Qed.

Lemma threshold_and_selection_raises
      (self : PaperSelector) (args_threshold : option R) (method : string)
      (e : exn) :
  determine_threshold args_threshold method self = (Raises e, self) ->
  threshold_and_selection args_threshold method self = (Raises e, self).
Proof.
  intros Hdet. unfold threshold_and_selection, bind. rewrite Hdet.
  reflexivity.
Qed.

Lemma compute_threshold_custom
      (self : PaperSelector) (sims : list R) (t : R) :
  similarities self = Some sims ->
  compute_threshold "custom" (Some t) self = (Returns t, with_threshold self t).
Proof. intros Hsims. run_selector. rewrite Hsims. reflexivity. Qed.

(** X5.  How [main] resolves its threshold options, on a selector with scores:
    a threshold given with [-t] is used whatever [--threshold-method]
    says, also for a method name that does not exist; method ["custom"]
    without [-t] fails with the missing-value error; so does an unknown
    method with the unknown-method error.  A failure leaves the selector as
    it was; a success stores the threshold and reports the mask and the
    number of selected papers. *)
Theorem command_line_threshold_resolution
        (self : PaperSelector) (sims : list R) :
  similarities self = Some sims ->
  (forall t method,
      threshold_and_selection (Some t) method self
      = (Returns (t, ge_elementwise sims t, Z.of_nat (count_selected sims t)),
         with_threshold self t)) /\
  threshold_and_selection None "custom" self
  = (Raises CustomThresholdNotProvided, self) /\
  (forall method,
      ~ In method recognized_methods ->
      threshold_and_selection None method self
      = (Raises (UnknownMethod method), self)).
Proof.
  intros Hsims. split; [| split].
  - intros t method. apply threshold_and_selection_value; [exact Hsims |].
    exact (compute_threshold_custom self sims t Hsims).
  - apply threshold_and_selection_raises.
    unfold determine_threshold. run_selector. rewrite Hsims. reflexivity.
  - intros method Hnot. apply threshold_and_selection_raises.
    destruct (unrecognized_method_eqb method Hnot)
      as (H1 & H2 & H3 & H4 & H5 & H6).
    unfold determine_threshold. run_selector.
    rewrite Hsims, H1, H2, H3, H4, H5, H6. reflexivity.
Qed.

Lemma command_line_threshold_resolution_witness :
  let sims := [0.1; 0.5; 0.9; 0.3; 0.7] in
  let self := {| similarities := Some sims; threshold := None |} in
  threshold_and_selection (Some 0.5) "no_such_method" self
  = (Returns (0.5, ge_elementwise sims 0.5, 3%Z), with_threshold self 0.5).
Proof.
  intros sims self.
  destruct (command_line_threshold_resolution self sims eq_refl)
    as (Hgiven & _ & _).
  rewrite (Hgiven 0.5 "no_such_method"%string).
  unfold sims. rewrite count_selected_scenario. reflexivity.
Defined.

(** X6.  The selections of the statistical policies are nested.  Whatever
    ["mean_2std"] selects, ["mean_1std"] selects too; and on a non-empty
    score vector whatever ["percentile_90"] selects is selected by
    ["percentile_75"], and that by ["median"]. *)
Theorem policy_selections_are_nested
        (self : PaperSelector) (sims : list R) :
  similarities self = Some sims -> sims <> [] ->
  exists t2 m2 n2 t1 m1 n1 t90 m90 n90 t75 m75 n75 t50 m50 n50,
    threshold_and_selection None "mean_2std" self
    = (Returns (t2, m2, n2), with_threshold self t2) /\
    threshold_and_selection None "mean_1std" self
    = (Returns (t1, m1, n1), with_threshold self t1) /\
    threshold_and_selection None "percentile_90" self
    = (Returns (t90, m90, n90), with_threshold self t90) /\
    threshold_and_selection None "percentile_75" self
    = (Returns (t75, m75, n75), with_threshold self t75) /\
    threshold_and_selection None "median" self
    = (Returns (t50, m50, n50), with_threshold self t50) /\
    (forall i, m2 !! i = Some true -> m1 !! i = Some true) /\
    (forall i, m90 !! i = Some true -> m75 !! i = Some true) /\
    (forall i, m75 !! i = Some true -> m50 !! i = Some true) /\
    (n2 <= n1)%Z /\ (n90 <= n75)%Z /\ (n75 <= n50)%Z.
Proof.
  intros Hsims Hne.
  assert (Hrun : forall method t,
             In (method, t)
                [("mean_2std"%string, np_mean sims + 2 * np_std sims);
                 ("mean_1std"%string, np_mean sims + 1 * np_std sims);
                 ("median"%string, np_median sims);
                 ("percentile_75"%string, np_percentile sims 75);
                 ("percentile_90"%string, np_percentile sims 90)] ->
             threshold_and_selection None method self
             = (Returns (t, ge_elementwise sims t,
                         Z.of_nat (count_selected sims t)),
                with_threshold self t)).
  { intros method t Hin. apply threshold_and_selection_value; [exact Hsims |].
    unfold determine_threshold.
    apply (compute_threshold_value self sims method None t Hsims Hin). }
  assert (Hstd : np_mean sims + 1 * np_std sims
                 <= np_mean sims + 2 * np_std sims).
  { pose proof (sqrt_pos (np_var sims)) as Hpos. unfold np_std. lra. }
  assert (H9075 : np_percentile sims 75 <= np_percentile sims 90)
    by (apply np_percentile_mono; [exact Hne | lia | lia]).
  assert (H7550 : np_median sims <= np_percentile sims 75).
  { rewrite (np_median_is_percentile_50 sims Hne).
    apply np_percentile_mono; [exact Hne | lia | lia]. }
  do 15 eexists.
  split; [apply Hrun; simpl; tauto |].
  split; [apply Hrun; simpl; tauto |].
  split; [apply Hrun; simpl; tauto |].
  split; [apply Hrun; simpl; tauto |].
  split; [apply Hrun; simpl; tauto |].
  split; [intros i; apply ge_elementwise_antitone; exact Hstd |].
  split; [intros i; apply ge_elementwise_antitone; exact H9075 |].
  split; [intros i; apply ge_elementwise_antitone; exact H7550 |].
  split; [apply inj_le, count_selected_antitone; exact Hstd |].
  split; apply inj_le, count_selected_antitone; assumption.
Qed.

Lemma policy_selections_are_nested_witness :
  let sims := [0.1; 0.5; 0.9; 0.3; 0.7] in
  let self := {| similarities := Some sims; threshold := None |} in
  exists t2 m2 n2 t1 m1 n1,
    threshold_and_selection None "mean_2std" self
    = (Returns (t2, m2, n2), with_threshold self t2) /\
    threshold_and_selection None "mean_1std" self
    = (Returns (t1, m1, n1), with_threshold self t1) /\
    (n2 <= n1)%Z.
Proof.
  intros sims self.
  assert (Hne : sims <> []) by discriminate.
  destruct (policy_selections_are_nested self sims eq_refl Hne)
    as (t2 & m2 & n2 & t1 & m1 & n1 & t90 & m90 & n90 & t75 & m75 & n75
        & t50 & m50 & n50 & H2 & H1 & _ & _ & _ & _ & _ & _ & Hn & _).
  exists t2, m2, n2, t1, m1, n1. repeat (split; [assumption |]). exact Hn.
Defined.

(** ** How much the percentile policies select *)

Lemma lerp_at_0 (a b : R) : lerp a b 0 = a.
Proof. unfold lerp. ring. Qed.

Lemma np_percentile_share (s : list R) (q : nat) :
  s <> [] -> q = 50%nat \/ q = 75%nat \/ q = 90%nat ->
  ((100 - q) * length s <= 100 * count_selected s (np_percentile s q))%nat.
Proof.
  intros Hne Hq. pose proof (length_pos_of_nonempty s Hne) as Hn.
  rewrite <- (count_selected_perm _ _ _ (np_sort_perm s)).
  pose proof (np_sort_sorted s) as Hsorted.
  pose proof (sorted_ascending _ Hsorted) as Hasc.
  pose proof (length_np_sort s) as Hlen.
  unfold np_percentile. cbv zeta.
  set (scaled := ((length s - 1) * q)%nat).
  pose proof (Nat.div_mod_eq scaled 100) as Hdm.
  pose proof (Nat.mod_upper_bound scaled 100 ltac:(lia)) as Hmod.
  assert (Hscaled : (scaled = (length s - 1) * q)%nat) by reflexivity.
  assert (Hbound : (scaled <= (length s - 1) * 100)%nat) by nia.
  clearbody scaled.
  set (lo := (scaled / 100)%nat) in *. set (r := (scaled mod 100)%nat) in *.
  destruct (Nat.eq_dec r 0%nat) as [Hr | Hr].
  - rewrite Hr. replace (INR 0 / 100) with 0 by (simpl; field).
    rewrite lerp_at_0.
    pose proof (count_selected_from_index (np_sort s) (nth lo (np_sort s) 0)
                  Hsorted lo ltac:(lia) ltac:(lra)) as Hcount.
    rewrite Hlen in Hcount. nia.
  - assert (Hhi : Nat.min (lo + 1) (length s - 1) = (lo + 1)%nat) by lia.
    rewrite Hhi.
    assert (Hle : lerp (nth lo (np_sort s) 0) (nth (lo + 1) (np_sort s) 0)
                       (INR r / 100)
                  <= nth (lo + 1) (np_sort s) 0).
    { apply lerp_bounds; [apply Hasc; lia |].
      pose proof (pos_INR r) as Hpos.
      apply lt_INR in Hmod. rewrite INR_100 in Hmod. lra. }
    pose proof (count_selected_from_index (np_sort s) _ Hsorted (lo + 1)
                  ltac:(lia) Hle) as Hcount.
    rewrite Hlen in Hcount.
    destruct Hq as [-> | [-> | ->]]; lia.
Qed.

(** X7.  On a non-empty score vector the ["median"] policy selects at least
    half of the papers, ["percentile_75"] at least a quarter and
    ["percentile_90"] at least a tenth. *)
Theorem percentile_policies_select_their_share
        (self : PaperSelector) (sims : list R) :
  similarities self = Some sims -> sims <> [] ->
  exists t50 m50 n50 t75 m75 n75 t90 m90 n90,
    threshold_and_selection None "median" self
    = (Returns (t50, m50, n50), with_threshold self t50) /\
    threshold_and_selection None "percentile_75" self
    = (Returns (t75, m75, n75), with_threshold self t75) /\
    threshold_and_selection None "percentile_90" self
    = (Returns (t90, m90, n90), with_threshold self t90) /\
    (Z.of_nat (length sims) <= 2 * n50)%Z /\
    (Z.of_nat (length sims) <= 4 * n75)%Z /\
    (Z.of_nat (length sims) <= 10 * n90)%Z.
Proof.
  intros Hsims Hne.
  assert (Hrun : forall method t,
             In (method, t)
                [("mean_2std"%string, np_mean sims + 2 * np_std sims);
                 ("mean_1std"%string, np_mean sims + 1 * np_std sims);
                 ("median"%string, np_median sims);
                 ("percentile_75"%string, np_percentile sims 75);
                 ("percentile_90"%string, np_percentile sims 90)] ->
             threshold_and_selection None method self
             = (Returns (t, ge_elementwise sims t,
                         Z.of_nat (count_selected sims t)),
                with_threshold self t)).
  { intros method t Hin. apply threshold_and_selection_value; [exact Hsims |].
    unfold determine_threshold.
    apply (compute_threshold_value self sims method None t Hsims Hin). }
  pose proof (np_percentile_share sims 50 Hne ltac:(tauto)) as H50.
  pose proof (np_percentile_share sims 75 Hne ltac:(tauto)) as H75.
  pose proof (np_percentile_share sims 90 Hne ltac:(tauto)) as H90.
  rewrite <- (np_median_is_percentile_50 sims Hne) in H50.
  do 9 eexists.
  split; [apply Hrun; simpl; tauto |].
  split; [apply Hrun; simpl; tauto |].
  split; [apply Hrun; simpl; tauto |].
  lia.
Qed.

Lemma percentile_policies_select_their_share_witness :
  let sims := [0.1; 0.5; 0.9; 0.3; 0.7] in
  let self := {| similarities := Some sims; threshold := None |} in
  exists t50 m50 n50,
    threshold_and_selection None "median" self
    = (Returns (t50, m50, n50), with_threshold self t50) /\
    (5 <= 2 * n50)%Z.
Proof.
  intros sims self.
  assert (Hne : sims <> []) by discriminate.
  destruct (percentile_policies_select_their_share self sims eq_refl Hne)
    as (t50 & m50 & n50 & _ & _ & _ & _ & _ & _ & Hrun & _ & _ & H50 & _).
  exists t50, m50, n50. split; [exact Hrun | exact H50].
Defined.

(** ** The default policy on a handful of papers *)











(** ** What gets saved *)

Section Saving.

Context {Row : Type}.

Lemma insert_descending_perm (p : Row * R) (l : list (Row * R)) :
  Permutation (insert_descending Row p l) (p :: l).
Proof.
  induction l as [| q l IH]; simpl; [reflexivity |].
  destruct (Rle_dec (snd q) (snd p)); [reflexivity |].
  rewrite IH. apply perm_swap.
Qed.

Lemma sort_values_descending_perm (df : list (Row * R)) :
  Permutation (sort_values_descending Row df) df.
Proof.
  induction df as [| p df IH]; simpl; [reflexivity |].
  rewrite insert_descending_perm. apply perm_skip. exact IH.
Qed.

Lemma insert_descending_sorted (p : Row * R) (l : list (Row * R)) :
  StronglySorted (fun a b => snd b <= snd a) l ->
  StronglySorted (fun a b => snd b <= snd a) (insert_descending Row p l).
Proof.
  induction 1 as [| q l Hl IH Hq]; simpl.
  - repeat constructor.
  - destruct (Rle_dec (snd q) (snd p)) as [Hle | Hgt].
    + constructor; [constructor; assumption |].
      constructor; [exact Hle |].
      eapply List.Forall_impl; [| exact Hq]. intros r Hr. simpl in Hr. lra.
    + constructor; [exact IH |].
      rewrite insert_descending_perm.
      constructor; [lra | exact Hq].
Qed.

Lemma sort_values_descending_sorted (df : list (Row * R)) :
  StronglySorted (fun a b => snd b <= snd a) (sort_values_descending Row df).
Proof.
  induction df as [| p df IH]; simpl; [constructor |].
  apply insert_descending_sorted. exact IH.
Qed.

(** Indexing the scored rows with the selector's mask keeps the rows
    whose score reaches the threshold. *)
Lemma boolean_index_mask (df : list Row) (sims : list R) (t : R) :
  length sims = length df ->
  map fst (List.filter snd (combine (combine df sims) (ge_elementwise sims t)))
  = List.filter (fun p => if Rge_dec (snd p) t then true else false)
                (combine df sims).
Proof.
  revert sims. induction df as [| row df IH]; intros sims Hlen.
  - reflexivity.
  - destruct sims as [| x sims]; [discriminate |].
    simpl in Hlen. injection Hlen as Hlen. simpl.
    destruct (Rge_dec x t); simpl; rewrite (IH sims Hlen); reflexivity.
Qed.

Lemma length_filter_scored (df : list Row) (sims : list R) (t : R) :
  length sims = length df ->
  length (List.filter (fun p : Row * R => if Rge_dec (snd p) t then true else false)
                      (combine df sims))
  = count_selected sims t.
Proof.
  revert sims. induction df as [| row df IH]; intros sims Hlen.
  - destruct sims; [reflexivity | discriminate].
  - destruct sims as [| x sims]; [discriminate |].
    simpl in Hlen. injection Hlen as Hlen.
    rewrite count_selected_cons. simpl.
    destruct (Rge_dec x t); simpl; rewrite (IH sims Hlen); reflexivity.
Qed.

(** With one value per row the assignment pairs rows and values, also on
    a frame without rows. *)
Lemma assign_column_matching (nan_row : Row) (df : list Row) (values : list R) :
  length values = length df ->
  assign_column Row nan_row df values = inr (combine df values).
Proof.
  intros Hlen. unfold assign_column. destruct df as [| row df].
  - destruct values; [reflexivity | discriminate].
  - rewrite Hlen, Nat.eqb_refl. reflexivity.
Qed.

(** The rows kept of a frame that grew from no rows. *)
Lemma grown_rows_are_missing
      (nan_row : Row) (values : list R) (mask : list bool) (p : Row * R) :
  In p (map fst (List.filter snd
          (combine (map (fun v => (nan_row, v)) values) mask))) ->
  fst p = nan_row.
Proof.
  intros Hp. apply in_map_iff in Hp as ((q & keep) & <- & Hq).
  apply filter_In in Hq as (Hq & _). apply in_combine_l in Hq.
  apply in_map_iff in Hq as (v & <- & _). reflexivity.
Qed.

Lemma grown_rows_scores
      (nan_row : Row) (values : list R) (mask : list bool) :
  map snd (map fst (List.filter snd
             (combine (map (fun v => (nan_row, v)) values) mask)))
  = map fst (List.filter snd (combine values mask)).
Proof.
  revert mask. induction values as [| v values IH]; intros mask;
    [reflexivity |].
  destruct mask as [| keep mask]; [reflexivity |]. simpl.
  destruct keep; simpl; rewrite IH; reflexivity.
Qed.

End Saving.

(** X9.  What [main] saves: with one score per row of the library, the rows
    written by [save_selected_papers] for the mask [select_papers]
    returned are exactly the rows whose score is at or above the
    threshold, each with its score and as often as it occurs, ordered by
    score from the highest down. *)
Theorem saved_papers_are_the_selected
        (Row : Type) (nan_row : Row) (self self' : PaperSelector)
        (sims : list R) (df : list Row) (t : R) (selected : list bool) :
  similarities self = Some sims -> length sims = length df ->
  select_papers (Some t) self = (Returns selected, self') ->
  exists out,
    save_selected_papers Row nan_row df sims selected = inr out /\
    Permutation out
      (List.filter (fun p => if Rge_dec (snd p) t then true else false)
                   (combine df sims)) /\
    (forall row x, In (row, x) out <-> In (row, x) (combine df sims) /\ x >= t) /\
    length out = count_selected sims t /\
    StronglySorted (fun a b => snd b <= snd a) out.
Proof.
  intros Hsims Hlen Hsel.
  rewrite (select_papers_explicit self sims t Hsims) in Hsel.
  injection Hsel as <- _.
  unfold save_selected_papers.
  rewrite (assign_column_matching nan_row df sims Hlen).
  unfold boolean_index.
  assert (Hmask : length (ge_elementwise sims t) = length (combine df sims)).
  { unfold ge_elementwise. rewrite length_map, length_combine. lia. }
  rewrite Hmask, Nat.eqb_refl, (boolean_index_mask df sims t Hlen).
  set (kept := List.filter _ (combine df sims)).
  exists (sort_values_descending Row kept).
  pose proof (sort_values_descending_perm kept) as Hperm.
  split; [reflexivity |]. split; [exact Hperm |].
  split; [| split].
  - intros row x. split.
    + intros Hin. apply (Permutation_in _ Hperm) in Hin.
      apply filter_In in Hin as (Hin & Hge). split; [exact Hin |].
      simpl in Hge. destruct (Rge_dec x t); [assumption | discriminate].
    + intros (Hin & Hge).
      apply (Permutation_in _ (Permutation_sym Hperm)).
      apply filter_In. split; [exact Hin |]. simpl.
      destruct (Rge_dec x t); [reflexivity | contradiction].
  - rewrite (Permutation_length Hperm). apply length_filter_scored.
    exact Hlen.
  - apply sort_values_descending_sorted.
Qed.

Lemma saved_papers_are_the_selected_witness :
  let sims := [0.1; 0.5; 0.9; 0.3; 0.7] in
  let self := {| similarities := Some sims; threshold := None |} in
  let df := ["a"; "b"; "c"; "d"; "e"]%string in
  exists out,
    save_selected_papers string "nan" df sims (ge_elementwise sims 0.5)
    = inr out /\
    length out = 3%nat /\
    StronglySorted (fun a b => snd b <= snd a) out.
Proof.
  intros sims self df.
  destruct (saved_papers_are_the_selected string "nan"%string self
              (with_threshold self 0.5)
              sims df 0.5 (ge_elementwise sims 0.5) eq_refl eq_refl)
    as (out & Hrun & _ & _ & Hlen & Hsorted).
  - apply select_papers_explicit. reflexivity.
  - exists out. split; [exact Hrun |]. split; [| exact Hsorted].
    rewrite Hlen. apply count_selected_scenario.
Defined.

(** X10.  [save_selected_papers] writes something exactly when the mask
    has one entry per score and the library has one row per score or no
    row at all; otherwise pandas raises and nothing is written.  On a
    library without rows the frame grows to one row per score: the rows
    written then have no cell but the score, and their scores are the
    selected ones. *)
Theorem save_selected_papers_needs_matching_lengths
        (Row : Type) (nan_row : Row)
        (df : list Row) (sims : list R) (selected : list bool) :
  ((exists out, save_selected_papers Row nan_row df sims selected = inr out)
   <-> (df = [] \/ length sims = length df)
       /\ length selected = length sims) /\
  (forall out,
     save_selected_papers Row nan_row [] sims selected = inr out ->
     Forall (fun p => fst p = nan_row) out /\
     Permutation (map snd out)
                 (map fst (List.filter snd (combine sims selected)))).
Proof.
  split.
  - unfold save_selected_papers, assign_column, boolean_index.
    destruct df as [| row df].
    + rewrite length_map.
      destruct (Nat.eqb_spec (length selected) (length sims)) as [Hm | Hm].
      * split; [intros _; split; [left; reflexivity | exact Hm]
               | intros _; eexists; reflexivity].
      * split; [intros (out & Hout); discriminate | intros (_ & Hm')].
        contradiction.
    + destruct (Nat.eqb_spec (length sims) (length (row :: df))) as [Hs | Hs].
      * replace (length (combine (row :: df) sims)) with (length sims)
          by (rewrite length_combine; lia).
        destruct (Nat.eqb_spec (length selected) (length sims)) as [Hm | Hm].
        -- split; [intros _; split; [right; exact Hs | exact Hm]
                  | intros _; eexists; reflexivity].
        -- split; [intros (out & Hout); discriminate | intros (_ & Hm')].
           contradiction.
      * split; [intros (out & Hout); discriminate | intros ([Hd | Hs'] & _)].
        -- discriminate.
        -- contradiction.
  - intros out. unfold save_selected_papers, assign_column, boolean_index.
    rewrite length_map.
    destruct (Nat.eqb_spec (length selected) (length sims)) as [Hm | Hm];
      [| discriminate].
    intros Hout. injection Hout as <-.
    set (kept := map fst (List.filter snd
                   (combine (map (fun v => (nan_row, v)) sims) selected))).
    pose proof (sort_values_descending_perm kept) as Hperm.
    split.
    + apply List.Forall_forall. intros p Hp.
      apply (Permutation_in _ Hperm) in Hp.
      exact (grown_rows_are_missing nan_row sims selected p Hp).
    + rewrite (Permutation_map snd Hperm). unfold kept.
      rewrite grown_rows_scores. reflexivity.
Qed.

Lemma save_selected_papers_needs_matching_lengths_witness :
  exists out,
    save_selected_papers string "nan" [] [0.3; 0.9] [false; true] = inr out /\
    out = [("nan"%string, 0.9)] /\
    Forall (fun p => fst p = "nan"%string) out.
Proof.
  destruct (save_selected_papers_needs_matching_lengths
              string "nan"%string [] [0.3; 0.9] [false; true])
    as ((_ & Hwrites) & Hrows).
  destruct Hwrites as (out & Hout).
  - split; [left; reflexivity | reflexivity].
  - exists out. split; [exact Hout |].
    split; [| exact (proj1 (Hrows out Hout))].
    injection Hout as <-. reflexivity.
Defined.

(** ** Splitting and joining texts *)

Lemma append_cons (c : ascii) (s t : string) :
  String c s +:+ t = String c (s +:+ t).
Proof. reflexivity. Qed.

Lemma append_nil_l (s : string) : EmptyString +:+ s = s.
Proof. reflexivity. Qed.

Lemma append_nil_r (s : string) : s +:+ EmptyString = s.
Proof.
  induction s as [| c s IH]; [reflexivity |].
  rewrite append_cons, IH. reflexivity.
Qed.

Lemma append_assoc (a b c : string) : (a +:+ b) +:+ c = a +:+ (b +:+ c).
Proof.
  induction a as [| x a IH]; [reflexivity |].
  rewrite !append_cons, IH. reflexivity.
Qed.

Lemma nonempty_append_l (a b : string) :
  nonempty a = true -> nonempty (a +:+ b) = true.
Proof. destruct a; [discriminate | reflexivity]. Qed.

Lemma nonempty_snoc (a : string) (c : ascii) :
  nonempty (a +:+ String c EmptyString) = true.
Proof. destruct a; reflexivity. Qed.

Lemma str_forall_append (p : ascii -> bool) (a b : string) :
  str_forall p (a +:+ b) = str_forall p a && str_forall p b.
Proof.
  induction a as [| c a IH]; [reflexivity |].
  rewrite append_cons. simpl. rewrite IH. destruct (p c); reflexivity.
Qed.

(** Reading on after a run of non-whitespace characters. *)
Lemma split_from_run (u word rest : string) :
  str_forall (fun c => negb (isspace c)) u = true ->
  split_from word (u +:+ rest) = split_from (word +:+ u) rest.
Proof.
  revert word. induction u as [| c u IH]; intros word Hu.
  - rewrite append_nil_l, append_nil_r. reflexivity.
  - simpl in Hu. apply andb_true_iff in Hu as (Hc & Hu).
    apply negb_true_iff in Hc. rewrite append_cons. simpl.
    rewrite Hc, (IH _ Hu), append_assoc. reflexivity.
Qed.

Lemma split_from_words (s word : string) :
  str_forall (fun c => negb (isspace c)) word = true ->
  Forall (fun w => is_word w = true) (split_from word s).
Proof.
  revert word. induction s as [| c s IH]; intros word Hword; simpl.
  - destruct (nonempty word) eqn:Hne; [| constructor].
    constructor; [| constructor]. unfold is_word. rewrite Hne, Hword.
    reflexivity.
  - destruct (isspace c) eqn:Hc.
    + destruct (nonempty word) eqn:Hne; [| apply IH; reflexivity].
      constructor; [| apply IH; reflexivity].
      unfold is_word. rewrite Hne, Hword. reflexivity.
    + apply IH. rewrite str_forall_append, Hword. simpl. rewrite Hc.
      reflexivity.
Qed.

Lemma str_split_words (s : string) :
  Forall (fun w => is_word w = true) (str_split s).
Proof. apply split_from_words. reflexivity. Qed.

Lemma str_join_cons (sep w : string) (ws : list string) :
  ws <> [] -> str_join sep (w :: ws) = w +:+ sep +:+ str_join sep ws.
Proof. destruct ws; [contradiction | reflexivity]. Qed.

Lemma str_join_app (sep : string) (l1 l2 : list string) :
  l1 <> [] -> l2 <> [] ->
  str_join sep (l1 ++ l2) = str_join sep l1 +:+ sep +:+ str_join sep l2.
Proof.
  intros H1 H2. induction l1 as [| w l1 IH]; [contradiction |].
  destruct l1 as [| w' l1].
  - simpl app. rewrite str_join_cons by exact H2. reflexivity.
  - change ((w :: w' :: l1) ++ l2) with (w :: ((w' :: l1) ++ l2)).
    rewrite str_join_cons by discriminate.
    rewrite IH by discriminate.
    rewrite (str_join_cons sep w (w' :: l1)) by discriminate.
    rewrite !append_assoc. reflexivity.
Qed.

(** Splitting what was joined with single spaces gives the words back. *)
Lemma str_split_join (ws : list string) :
  Forall (fun w => is_word w = true) ws ->
  str_split (str_join " " ws) = ws.
Proof.
  induction 1 as [| w ws Hw Hws IH]; [reflexivity |].
  unfold is_word in Hw. apply andb_true_iff in Hw as (Hne & Hns).
  destruct ws as [| w' ws].
  - unfold str_split, str_join. simpl.
    rewrite <- (append_nil_r w) at 1.
    rewrite (split_from_run w EmptyString EmptyString Hns).
    rewrite append_nil_l. simpl. rewrite Hne. reflexivity.
  - rewrite str_join_cons by discriminate.
    unfold str_split.
    rewrite (split_from_run w EmptyString _ Hns).
    rewrite append_nil_l, append_cons, append_nil_l. simpl.
    rewrite Hne. f_equal. exact IH.
Qed.

Lemma single_spaced_word (w rest : string) (after_space : bool) :
  is_word w = true ->
  single_spaced after_space (w +:+ rest) = single_spaced false rest.
Proof.
  unfold is_word. intros Hw. apply andb_true_iff in Hw as (Hne & Hns).
  revert after_space. induction w as [| c w IH]; intros after_space;
    [discriminate |].
  simpl in Hns. apply andb_true_iff in Hns as (Hc & Hns).
  apply negb_true_iff in Hc. rewrite append_cons. simpl. rewrite Hc.
  destruct w as [| d w]; [reflexivity |].
  apply IH; [reflexivity | exact Hns].
Qed.

Lemma single_spaced_join (ws : list string) :
  Forall (fun w => is_word w = true) ws -> ws <> [] ->
  single_spaced true (str_join " " ws) = true.
Proof.
  induction 1 as [| w ws Hw Hws IH]; intros Hne; [contradiction |].
  destruct ws as [| w' ws].
  - unfold str_join. simpl. rewrite <- (append_nil_r w).
    rewrite single_spaced_word by exact Hw. reflexivity.
  - rewrite str_join_cons by discriminate.
    rewrite single_spaced_word by exact Hw.
    rewrite append_cons, append_nil_l. simpl. apply IH. discriminate.
Qed.

Lemma nonempty_join (sep : string) (ws : list string) :
  Forall (fun w => is_word w = true) ws ->
  nonempty (str_join sep ws) = match ws with [] => false | _ => true end.
Proof.
  intros Hws. destruct ws as [| w ws]; [reflexivity |].
  apply Forall_cons_1 in Hws as (Hw & _).
  unfold is_word in Hw. apply andb_true_iff in Hw as (Hne & _).
  destruct ws; [exact Hne |].
  rewrite str_join_cons by discriminate. apply nonempty_append_l. exact Hne.
Qed.

(** ** Paper texts *)

Lemma split_from_nil (s word : string) :
  split_from word s = [] <->
  nonempty word = false /\ str_forall isspace s = true.
Proof.
  revert word. induction s as [| c s IH]; intros word; simpl.
  - destruct (nonempty word); split; try tauto; try discriminate.
    intros (H & _). discriminate.
  - destruct (isspace c) eqn:Hc; simpl.
    + destruct (nonempty word) eqn:Hne.
      * split; [discriminate | intros (H & _); discriminate].
      * rewrite IH. simpl. tauto.
    + rewrite IH, nonempty_snoc.
      split; [intros (H & _); discriminate | intros (_ & H); discriminate].
Qed.

Lemma words_of_blank (o : pyobj) : words_of o = [] <-> is_blank o = true.
Proof.
  destruct o as [| | s]; simpl.
  - tauto.
  - split; discriminate.
  - unfold str_split. rewrite split_from_nil. simpl. tauto.
Qed.

Lemma words_of_are_words (o : pyobj) :
  Forall (fun w => is_word w = true) (words_of o).
Proof. destruct o; [constructor | apply str_split_words ..]. Qed.

Lemma squeeze_text (o : pyobj) :
  squeeze (match o with PyNone => EmptyString | _ => py_str o end)
  = str_join " " (words_of o).
Proof. destruct o; reflexivity. Qed.

(** X11.  The text built for a paper, with the default separator: the words
    of the title, then the word [[SEP]] when neither title nor abstract
    is blank, then the words of the abstract, joined by single spaces.
    Splitting the text gives these words back; the text is empty when
    there are none and otherwise has no whitespace but the single spaces
    between the words. *)
Theorem combine_title_abstract_words (title abstract : pyobj) :
  let words :=
    words_of title
    ++ (if is_blank title || is_blank abstract then [] else ["[SEP]"%string])
    ++ words_of abstract in
  let text := combine_title_abstract title abstract default_separator in
  text = str_join " " words /\
  str_split text = words /\
  (words = [] -> text = EmptyString) /\
  (words <> [] -> single_spaced true text = true).
Proof.
  intros words text.
  pose proof (words_of_are_words title) as Htw.
  pose proof (words_of_are_words abstract) as Haw.
  assert (Hwords : Forall (fun w => is_word w = true) words).
  { unfold words. apply Forall_app. split; [exact Htw |].
    apply Forall_app. split; [| exact Haw].
    destruct (is_blank title || is_blank abstract);
      [constructor | repeat constructor]. }
  assert (Htext : text = str_join " " words).
  { unfold text, combine_title_abstract. cbv zeta.
    rewrite !squeeze_text, !nonempty_join by assumption.
    unfold words.
    destruct (words_of title) as [| tw tws] eqn:Et;
      destruct (words_of abstract) as [| aw aws] eqn:Ea.
    - apply words_of_blank in Et. rewrite Et. reflexivity.
    - apply words_of_blank in Et. rewrite Et. reflexivity.
    - assert (Hb : is_blank abstract = true) by (apply words_of_blank; exact Ea).
      rewrite Hb, orb_true_r, !app_nil_r. reflexivity.
    - assert (Hbt : is_blank title = false).
      { destruct (is_blank title) eqn:E; [| reflexivity].
        apply words_of_blank in E. congruence. }
      assert (Hba : is_blank abstract = false).
      { destruct (is_blank abstract) eqn:E; [| reflexivity].
        apply words_of_blank in E. congruence. }
      rewrite Hbt, Hba. simpl orb. cbv iota.
      rewrite str_join_app by discriminate.
      rewrite (str_join_app " " ["[SEP]"%string] (aw :: aws)) by discriminate.
      reflexivity. }
  split; [exact Htext |].
  split; [rewrite Htext; apply str_split_join; exact Hwords |].
  split.
  - intros Hnil. rewrite Htext, Hnil. reflexivity.
  - intros Hne. rewrite Htext. apply single_spaced_join; assumption.
Qed.

(** X12.  A cell that pandas read as missing is not [None]: its text is the
    word [nan], which enters the paper's text like any other word.  A
    title with a missing abstract gives the title, the separator and
    [nan]; with [None] in its place it gives the title alone. *)
Theorem missing_cell_enters_text_as_nan (t separator : string) :
  is_blank (PyStr t) = false ->
  combine_title_abstract (PyStr t) PyNaN separator
  = squeeze t +:+ separator +:+ "nan" /\
  combine_title_abstract PyNaN (PyStr t) separator
  = "nan" +:+ separator +:+ squeeze t /\
  combine_title_abstract PyNaN PyNaN separator
  = "nan" +:+ separator +:+ "nan" /\
  combine_title_abstract (PyStr t) PyNone separator = squeeze t.
Proof.
  intros Hblank.
  assert (Hne : nonempty (squeeze t) = true).
  { unfold squeeze. rewrite nonempty_join by apply str_split_words.
    destruct (str_split t) eqn:E; [| reflexivity].
    assert (Hb : is_blank (PyStr t) = true)
      by (apply words_of_blank; exact E).
    congruence. }
  unfold combine_title_abstract. cbv zeta. simpl py_str.
  change (squeeze "nan") with "nan"%string.
  change (squeeze EmptyString) with EmptyString.
  rewrite Hne. repeat split; reflexivity.
Qed.

Lemma missing_cell_enters_text_as_nan_witness :
  combine_title_abstract (PyStr "Deep   learning ") PyNaN default_separator
  = "Deep learning [SEP] nan"%string.
Proof.
  destruct (missing_cell_enters_text_as_nan "Deep   learning " default_separator
              eq_refl) as (H & _).
  rewrite H. reflexivity.
Defined.

(** ** Columns of the library *)

Lemma in_columns_In (columns : list string) (c : string) :
  in_columns columns c = true <-> In c columns.
Proof.
  unfold in_columns. rewrite existsb_exists. split.
  - intros (x & Hx & Heq). apply String.eqb_eq in Heq. subst. exact Hx.
  - intros Hin. exists c. split; [exact Hin | apply String.eqb_refl].
Qed.

Lemma find_first_present (columns candidates : list string) :
  match List.find (in_columns columns) candidates with
  | Some c => first_present columns candidates c
  | None => Forall (fun y => ~ In y columns) candidates
  end.
Proof.
  induction candidates as [| y candidates IH]; simpl; [constructor |].
  destruct (in_columns columns y) eqn:Hy.
  - exists [], candidates. split; [reflexivity |].
    split; [apply in_columns_In; exact Hy | constructor].
  - assert (Hnot : ~ In y columns).
    { intros Hin. apply in_columns_In in Hin. congruence. }
    destruct (List.find (in_columns columns) candidates) as [c |].
    + destruct IH as (earlier & later & -> & Hin & Hearlier).
      exists (y :: earlier), later. split; [reflexivity |].
      split; [exact Hin | constructor; assumption].
    + constructor; assumption.
Qed.

(** X13.  [extract_title_abstract_columns] returns the first title candidate
    and the first abstract candidate that are columns of the library, in
    the candidates' order of preference; both are columns.  It fails
    with the title error when no title candidate is a column, and with
    the abstract error when a title column exists but no abstract
    candidate is a column. *)
Theorem extract_title_abstract_columns_spec (columns : list string) :
  match extract_title_abstract_columns columns with
  | inr (title_col, abstract_col) =>
      first_present columns title_candidates title_col /\
      first_present columns abstract_candidates abstract_col /\
      In title_col columns /\ In abstract_col columns
  | inl e =>
      (e = CouldNotFindTitleColumn columns /\
       Forall (fun y => ~ In y columns) title_candidates) \/
      (e = CouldNotFindAbstractColumn columns /\
       (exists t, first_present columns title_candidates t) /\
       Forall (fun y => ~ In y columns) abstract_candidates)
  end.
Proof.
  unfold extract_title_abstract_columns.
  pose proof (find_first_present columns title_candidates) as Ht.
  pose proof (find_first_present columns abstract_candidates) as Ha.
  destruct (List.find (in_columns columns) title_candidates) as [t |].
  - destruct (List.find (in_columns columns) abstract_candidates) as [a |].
    + repeat split; try assumption.
      * destruct Ht as (_ & _ & _ & Hin & _). exact Hin.
      * destruct Ha as (_ & _ & _ & Hin & _). exact Hin.
    + right. split; [reflexivity |]. split; [exists t; exact Ht | exact Ha].
  - left. split; [reflexivity | exact Ht].
Qed.

Lemma count_isna_all (cells : list pyobj) :
  count_isna cells = length cells <-> Forall (fun c => pd_isna c = true) cells.
Proof.
  unfold count_isna. induction cells as [| c cells IH]; simpl.
  - split; [constructor | reflexivity].
  - pose proof (filter_length_le pd_isna cells) as Hle.
    destruct (pd_isna c) eqn:Hc; simpl.
    + split.
      * intros H. constructor; [exact Hc |]. apply IH. lia.
      * intros H. apply Forall_cons_1 in H as (_ & H).
        apply IH in H. lia.
    + split; [lia |]. intros H. apply Forall_cons_1 in H as (H & _).
      congruence.
Qed.

(** X14.  [validate_dataframe] accepts a library exactly when it has a row,
    the two columns exist, and some row holds a title; what the abstract
    column holds plays no part. *)
Theorem validate_dataframe_accepts
        (df : DataFrame) (title_col abstract_col : string) :
  validate_dataframe df title_col abstract_col = inr tt
  <-> df_rows df <> [] /\
      In title_col (df_columns df) /\ In abstract_col (df_columns df) /\
      exists row s, In row (df_rows df) /\ row !! title_col = Some (PyStr s).
Proof.
  unfold validate_dataframe, get_column.
  destruct (df_rows df) as [| r rows] eqn:Hrows.
  { simpl. split; [discriminate | intros (H & _); contradiction]. }
  cbn [length Nat.eqb].
  destruct (in_columns (df_columns df) title_col) eqn:Ht.
  2:{ split; [discriminate |]. intros (_ & Hin & _).
      apply in_columns_In in Hin. congruence. }
  destruct (in_columns (df_columns df) abstract_col) eqn:Ha.
  2:{ split; [discriminate |]. intros (_ & _ & Hin & _).
      apply in_columns_In in Hin. congruence. }
  apply in_columns_In in Ht. apply in_columns_In in Ha.
  set (titles := map (fun row => default PyNaN (row !! title_col)) (r :: rows)).
  assert (Hlen : length titles = S (length rows))
    by (unfold titles; rewrite length_map; reflexivity).
  rewrite <- Hlen.
  destruct (Nat.eqb_spec (count_isna titles) (length titles)) as [Hall | Hsome].
  - split; [discriminate |]. intros (_ & _ & _ & row & s & Hrow & Hs).
    exfalso. apply count_isna_all in Hall.
    rewrite List.Forall_forall in Hall.
    specialize (Hall (PyStr s)). simpl in Hall.
    assert (Hin : In (PyStr s) titles).
    { unfold titles. apply in_map_iff. exists row. rewrite Hs. tauto. }
    specialize (Hall Hin). discriminate.
  - split; [intros _ | reflexivity].
    split; [discriminate |]. split; [exact Ht |]. split; [exact Ha |].
    destruct (decide (Exists (fun c => pd_isna c = false) titles))
      as [Hex | Hnex].
    + apply List.Exists_exists in Hex as (c & Hc & Hna).
      unfold titles in Hc. apply in_map_iff in Hc as (row & Hrow & Hin).
      destruct (row !! title_col) as [[| | s] |] eqn:E;
        simpl in Hrow; subst c; try discriminate.
      exists row, s. split; [exact Hin | exact E].
    + exfalso. apply Hsome. apply count_isna_all.
      apply List.Forall_forall. intros c Hc.
      destruct (pd_isna c) eqn:E; [reflexivity |].
      exfalso. apply Hnex. apply List.Exists_exists. exists c. tauto.
Qed.

(** ** File names *)

Lemma rsplit1_no_sep (sep : ascii) (s : string) :
  str_contains sep s = false -> rsplit1 sep s = [s].
Proof.
  induction s as [| c s IH]; intros Hno; [reflexivity |].
  simpl in Hno. apply orb_false_iff in Hno as (Hc & Hs).
  simpl. rewrite (IH Hs), Hc. reflexivity.
Qed.

Lemma rsplit1_app (sep : ascii) (stem ext : string) :
  str_contains sep ext = false ->
  rsplit1 sep (stem +:+ String sep ext) = [stem; ext].
Proof.
  intros Hext. induction stem as [| c stem IH].
  - rewrite append_nil_l. simpl.
    rewrite (rsplit1_no_sep sep ext Hext), Ascii.eqb_refl. reflexivity.
  - rewrite append_cons. simpl. rewrite IH. reflexivity.
Qed.

Lemma str_contains_last (sep : ascii) (s : string) :
  str_contains sep s = true ->
  exists stem ext,
    s = stem +:+ String sep ext /\ str_contains sep ext = false.
Proof.
  induction s as [| c s IH]; intros Hyes; [discriminate |].
  simpl in Hyes.
  destruct (str_contains sep s) eqn:Hs.
  - destruct (IH eq_refl) as (stem & ext & -> & Hext).
    exists (String c stem), ext. split; [reflexivity | exact Hext].
  - rewrite orb_false_r in Hyes. apply Ascii.eqb_eq in Hyes. subst c.
    exists EmptyString, s. split; [reflexivity | exact Hs].
Qed.

Lemma str_contains_app (sep : ascii) (stem ext : string) :
  str_contains sep (stem +:+ String sep ext) = true.
Proof.
  induction stem as [| c stem IH].
  - rewrite append_nil_l. simpl. rewrite Ascii.eqb_refl. reflexivity.
  - rewrite append_cons. simpl. rewrite IH. apply orb_true_r.
Qed.

(** X15.  [allowed_file] never fails, and it accepts a file name exactly when
    the text after its last dot is [csv] in some mix of upper and lower
    case; a name without a dot is refused. *)
Theorem allowed_file_accepts (filename : string) :
  exists accepted,
    allowed_file filename = Some accepted /\
    (accepted = true <->
     exists stem extension,
       filename = stem +:+ "." +:+ extension /\
       str_contains "." extension = false /\
       str_lower extension = "csv"%string).
Proof.
  unfold allowed_file.
  destruct (str_contains "." filename) eqn:Hdot.
  - destruct (str_contains_last _ _ Hdot) as (stem & ext & -> & Hext).
    rewrite (rsplit1_app "." stem ext Hext). simpl lookup. cbv iota.
    eexists. split; [reflexivity |].
    rewrite bool_decide_eq_true. unfold ALLOWED_EXTENSIONS.
    rewrite elem_of_singleton. split.
    + intros Hcsv. exists stem, ext. repeat split; assumption.
    + intros (stem' & ext' & Heq & Hext' & Hcsv).
      change ("." +:+ ext') with (String "." ext') in Heq.
      assert (Hsplit : [stem; ext] = [stem'; ext']).
      { rewrite <- (rsplit1_app "." stem ext Hext),
          <- (rsplit1_app "." stem' ext' Hext'), Heq. reflexivity. }
      injection Hsplit as _ ->. exact Hcsv.
  - exists false. split; [reflexivity |].
    split; [discriminate |]. intros (stem & ext & -> & _ & _).
    change ("." +:+ ext) with (String "." ext) in Hdot.
    rewrite str_contains_app in Hdot. discriminate.
Qed.

(** ** BibTeX export *)

Lemma str_replace_append (old : ascii) (new a b : string) :
  str_replace old new (a +:+ b)
  = str_replace old new a +:+ str_replace old new b.
Proof.
  induction a as [| c a IH]; [reflexivity |].
  rewrite append_cons. simpl. rewrite IH, append_assoc. reflexivity.
Qed.

Lemma str_replace_flat_map (old : ascii) (new : string) (g : ascii -> string)
      (s : string) :
  str_replace old new (str_flat_map g s)
  = str_flat_map (fun c => str_replace old new (g c)) s.
Proof.
  induction s as [| c s IH]; [reflexivity |].
  simpl. rewrite str_replace_append, IH. reflexivity.
Qed.

Lemma str_flat_map_ext (g h : ascii -> string) (s : string) :
  (forall c, g c = h c) -> str_flat_map g s = str_flat_map h s.
Proof.
  intros Hgh. induction s as [| c s IH]; [reflexivity |].
  simpl. rewrite Hgh, IH. reflexivity.
Qed.

Lemma str_flat_map_single (s : string) :
  str_flat_map (fun c => String c EmptyString) s = s.
Proof.
  induction s as [| c s IH]; [reflexivity |].
  simpl. rewrite IH. reflexivity.
Qed.

Lemma escaping_one_character (c : ascii) :
  str_replace "_" "\_"
    (str_replace "&" "\&"
       (str_replace "%" "\%"
          (str_replace "}" "\}"
             (str_replace "{" "\{" (String c EmptyString)))))
  = escape_special c.
Proof.
  destruct c as [b0 b1 b2 b3 b4 b5 b6 b7].
  destruct b0, b1, b2, b3, b4, b5, b6, b7; reflexivity.
Qed.

(** X16.  [clean_for_bibtex] turns a missing value into the empty text, and in
    a text puts one backslash in front of every brace, percent sign,
    ampersand and underscore, leaving every other character, backslashes
    included, as it is: the five replacements do not touch each other's
    output. *)
Theorem clean_for_bibtex_escapes (s : string) :
  clean_for_bibtex (PyStr s) = str_flat_map escape_special s /\
  clean_for_bibtex PyNaN = EmptyString /\
  clean_for_bibtex PyNone = EmptyString /\
  (str_forall (fun c => negb (bibtex_special c)) s = true ->
   clean_for_bibtex (PyStr s) = s).
Proof.
  assert (Hmap : clean_for_bibtex (PyStr s) = str_flat_map escape_special s).
  { unfold clean_for_bibtex. simpl pd_isna. cbv iota zeta. simpl py_str.
    rewrite <- (str_flat_map_single s) at 1.
    rewrite !str_replace_flat_map.
    apply str_flat_map_ext. intros c. apply escaping_one_character. }
  split; [exact Hmap |]. split; [reflexivity |]. split; [reflexivity |].
  intros Hplain. rewrite Hmap. clear Hmap.
  induction s as [| c s IH]; [reflexivity |].
  simpl in Hplain. apply andb_true_iff in Hplain as (Hc & Hs).
  apply negb_true_iff in Hc. simpl.
  replace (escape_special c) with (String c EmptyString)
    by (unfold escape_special; rewrite Hc; reflexivity).
  rewrite append_cons, append_nil_l, (IH Hs). reflexivity.
Qed.

Lemma clean_for_bibtex_escapes_witness :
  clean_for_bibtex (PyStr "Graphs and trees") = "Graphs and trees"%string.
Proof.
  destruct (clean_for_bibtex_escapes "Graphs and trees") as (_ & _ & _ & H).
  apply H. reflexivity.
Defined.

(** X17.  Whatever the item type cell holds, [map_item_type] returns one of
    eight BibTeX entry types; a missing value gives [article]. *)
Theorem map_item_type_range (item_type : pyobj) :
  In (map_item_type item_type) bibtex_entry_types /\
  (pd_isna item_type = true -> map_item_type item_type = "article"%string).
Proof.
  unfold map_item_type.
  destruct (pd_isna item_type); [split; [simpl; tauto | reflexivity] |].
  split; [| discriminate]. cbv zeta.
  generalize (str_filter is_ascii_lower (str_lower (py_str item_type))).
  intros k. unfold type_mapping.
  repeat (rewrite lookup_insert; case_decide; [simpl; tauto |]).
  rewrite lookup_empty. simpl. tauto.
Qed.

(** *** Citation keys *)

Lemma pretty_N_char_digit (x : N) : isdigit (pretty_N_char x) = true.
Proof. unfold pretty_N_char. repeat case_match; reflexivity. Qed.

Lemma pretty_N_go_digits (x : N) (s : string) :
  str_forall isdigit s = true -> str_forall isdigit (pretty_N_go x s) = true.
Proof.
  revert s. induction (N.lt_wf_0 x) as [x _ IH]; intros s Hs.
  assert (Hx : (x = 0 \/ 0 < x)%N) by lia. destruct Hx as [-> | Hx].
  - rewrite pretty_N_go_0. exact Hs.
  - rewrite pretty_N_go_step by exact Hx. apply IH.
    + apply N.div_lt; [exact Hx | reflexivity].
    + simpl. rewrite pretty_N_char_digit. exact Hs.
Qed.

Lemma pretty_nat_digits (n : nat) : str_forall isdigit (pretty n) = true.
Proof.
  unfold pretty, pretty_nat, pretty, pretty_N.
  case_decide; [reflexivity |]. apply pretty_N_go_digits. reflexivity.
Qed.

Lemma str_forall_not_contains (p : ascii -> bool) (c : ascii) (s : string) :
  str_forall p s = true -> p c = false -> str_contains c s = false.
Proof.
  intros Hall Hc. induction s as [| d s IH]; [reflexivity |].
  simpl in Hall. apply andb_true_iff in Hall as (Hd & Hs).
  simpl. rewrite (IH Hs), orb_false_r.
  apply Ascii.eqb_neq. intros ->. congruence.
Qed.

Lemma str_forall_filter (p : ascii -> bool) (s : string) :
  str_forall p (str_filter p s) = true.
Proof.
  induction s as [| c s IH]; [reflexivity |].
  simpl. destruct (p c) eqn:Hc; [simpl; rewrite Hc |]; exact IH.
Qed.

Lemma search_4_digits_found (s digits : string) :
  search_4_digits s = Some digits ->
  String.length digits = 4%nat /\ str_forall isdigit digits = true.
Proof.
  induction s as [| a s IH]; [discriminate |].
  simpl. destruct s as [| b [| c [| d rest]]]; try discriminate.
  destruct (isdigit a && isdigit b && isdigit c && isdigit d) eqn:Hd.
  - intros [= <-]. split; [reflexivity |].
    simpl. rewrite andb_true_r, !andb_assoc. exact Hd.
  - exact IH.
Qed.

(** The parts of a citation key: letters taken from the author, then
    what was made of the year, an underscore and the row number. *)
Lemma generate_citation_key_parts (row : gmap string pyobj) (index : nat) :
  let author := row_get row "Author" (PyStr EmptyString) in
  let year :=
    row_get row "Publication Year" (row_get row "Year" (PyStr EmptyString)) in
  exists name year_part,
    generate_citation_key row index
    = (name +:+ year_part) +:+ String "_" (pretty index) /\
    str_forall is_ascii_letter name = true /\
    (pd_isna author = true -> name = "Unknown"%string) /\
    (negb (pd_isna year) && truthy year = false -> year_part = EmptyString) /\
    (forall digits,
        negb (pd_isna year) && truthy year = true ->
        search_4_digits (str_strip (py_str year)) = Some digits ->
        year_part = digits).
Proof.
  intros author year. unfold generate_citation_key. cbv zeta.
  fold author. fold year.
  set (name := if negb (pd_isna author) && truthy author then _ else _).
  assert (Hname : str_forall is_ascii_letter name = true).
  { unfold name. destruct (negb (pd_isna author) && truthy author);
      [apply str_forall_filter | reflexivity]. }
  assert (Hmissing : pd_isna author = true -> name = "Unknown"%string).
  { intros Hna. unfold name. rewrite Hna. reflexivity. }
  destruct (negb (pd_isna year) && truthy year) eqn:Hyear.
  - eexists name, _. split; [| split; [exact Hname | split; [exact Hmissing |]]].
    + reflexivity.
    + split; [discriminate |]. intros digits _ Hfound. rewrite Hfound.
      reflexivity.
  - exists name, EmptyString.
    split; [| split; [exact Hname | split; [exact Hmissing |]]].
    + rewrite append_nil_r. reflexivity.
    + split; [reflexivity | discriminate].
Qed.

(** X18.  Two rows with different row numbers never get the same citation
    key, whatever the rows hold. *)
Theorem citation_keys_differ
        (row row' : gmap string pyobj) (index index' : nat) :
  index <> index' ->
  generate_citation_key row index <> generate_citation_key row' index'.
Proof.
  intros Hneq Heq.
  destruct (generate_citation_key_parts row index)
    as (n1 & y1 & H1 & _).
  destruct (generate_citation_key_parts row' index')
    as (n2 & y2 & H2 & _).
  assert (Hno : forall n : nat, str_contains "_" (pretty n) = false).
  { intros n. apply (str_forall_not_contains isdigit);
      [apply pretty_nat_digits | reflexivity]. }
  assert (Hsplit : [n1 +:+ y1; pretty index] = [n2 +:+ y2; pretty index']).
  { rewrite <- (rsplit1_app "_" (n1 +:+ y1) (pretty index) (Hno index)),
      <- (rsplit1_app "_" (n2 +:+ y2) (pretty index') (Hno index')).
    rewrite <- H1, <- H2, Heq. reflexivity. }
  injection Hsplit as _ Hpretty.
  apply Hneq. apply (inj (pretty (A := nat))). exact Hpretty.
Qed.

Lemma citation_keys_differ_witness :
  let row : gmap string pyobj := <["Author"%string := PyStr "Smith, John"]> ∅ in
  generate_citation_key row 1 <> generate_citation_key row 2.
Proof.
  intros row. apply citation_keys_differ. lia.
Defined.

(** X19.  The shape of a citation key.  It ends with an underscore and the
    row number; before that come letters only when the year cell is
    missing or empty, and letters followed by the first four digits in a
    row of the year cell when it has them.  A missing author gives the
    letters [Unknown]. *)
Theorem citation_key_shape
        (row : gmap string pyobj) (index : nat) (year_text : string) :
  row_get row "Publication Year" (row_get row "Year" (PyStr EmptyString))
  = PyStr year_text ->
  exists name year_part,
    generate_citation_key row index
    = name +:+ year_part +:+ "_" +:+ pretty index /\
    str_forall is_ascii_letter name = true /\
    (pd_isna (row_get row "Author" (PyStr EmptyString)) = true ->
     name = "Unknown"%string) /\
    (year_text = EmptyString -> year_part = EmptyString) /\
    (forall digits,
        search_4_digits (str_strip year_text) = Some digits ->
        year_part = digits /\ String.length digits = 4%nat /\
        str_forall isdigit digits = true).
Proof.
  intros Hyear.
  destruct (generate_citation_key_parts row index)
    as (name & year_part & Hkey & Hname & Hmissing & Hnone & Hfound).
  rewrite Hyear in Hnone, Hfound. simpl in Hnone, Hfound.
  exists name, year_part.
  split; [rewrite Hkey, append_assoc; reflexivity |].
  split; [exact Hname |]. split; [exact Hmissing |]. split.
  - intros ->. apply Hnone. reflexivity.
  - intros digits Hsearch.
    destruct year_text as [| c rest]; [discriminate |].
    split; [apply Hfound; [reflexivity | exact Hsearch] |].
    apply (search_4_digits_found _ _ Hsearch).
Qed.

Lemma citation_key_shape_witness :
  let row : gmap string pyobj :=
    <["Author"%string := PyStr "Smith, John"]>
      (<["Publication Year"%string := PyStr "2020-05-01"]> ∅) in
  exists name,
    generate_citation_key row 7 = name +:+ "2020" +:+ "_" +:+ pretty 7%nat /\
    str_forall is_ascii_letter name = true.
Proof.
  intros row.
  destruct (citation_key_shape row 7 "2020-05-01" eq_refl)
    as (name & year_part & Hkey & Hname & _ & _ & Hdigits).
  destruct (Hdigits "2020"%string eq_refl) as (-> & _).
  exists name. split; [exact Hkey | exact Hname].
Defined.

(** ** The reference text *)

Lemma str_lstrip_empty (s : string) :
  str_lstrip s = EmptyString <-> str_forall isspace s = true.
Proof.
  induction s as [| c s IH]; simpl; [tauto |].
  destruct (isspace c); simpl; [exact IH |].
  split; discriminate.
Qed.

Lemma str_rstrip_empty (s : string) :
  str_rstrip s = EmptyString <-> str_forall isspace s = true.
Proof.
  induction s as [| c s IH]; simpl; [tauto |].
  destruct (str_rstrip s) as [| d r] eqn:Hr.
  - destruct (isspace c); simpl.
    + split; [intros _; apply IH; reflexivity | reflexivity].
    + split; discriminate.
  - split; [discriminate |]. intros H.
    apply andb_true_iff in H as (_ & H). apply IH in H. discriminate.
Qed.

Lemma str_forall_lstrip (s : string) :
  str_forall isspace (str_lstrip s) = true -> str_forall isspace s = true.
Proof.
  induction s as [| c s IH]; simpl; [tauto |].
  destruct (isspace c) eqn:Hc; simpl; [exact IH |].
  rewrite Hc. discriminate.
Qed.

Lemma str_strip_empty (s : string) :
  str_strip s = EmptyString <-> str_forall isspace s = true.
Proof.
  unfold str_strip. rewrite str_rstrip_empty. split.
  - apply str_forall_lstrip.
  - intros H. apply str_lstrip_empty in H. rewrite H. reflexivity.
Qed.

Lemma str_lstrip_head (s : string) :
  match str_lstrip s with
  | EmptyString => True
  | String c _ => isspace c = false
  end.
Proof.
  induction s as [| c s IH]; simpl; [exact I |].
  destruct (isspace c) eqn:Hc; [exact IH | exact Hc].
Qed.

Lemma str_rstrip_cons (c : ascii) (s : string) :
  isspace c = false ->
  exists rest, str_rstrip (String c s) = String c rest.
Proof.
  intros Hc. simpl. destruct (str_rstrip s) as [| d r].
  - rewrite Hc. eexists. reflexivity.
  - eexists. reflexivity.
Qed.

Lemma str_rstrip_idempotent (s : string) :
  str_rstrip (str_rstrip s) = str_rstrip s.
Proof.
  induction s as [| c s IH]; [reflexivity |].
  simpl. destruct (str_rstrip s) as [| d r] eqn:Hr.
  - destruct (isspace c) eqn:Hc; [reflexivity |].
    simpl. rewrite Hc. reflexivity.
  - simpl. simpl in IH. destruct (str_rstrip r) as [| e r'] eqn:Hr'.
    + destruct (isspace d) eqn:Hd; [discriminate |].
      injection IH as <-. reflexivity.
    + injection IH as <-. reflexivity.
Qed.

Lemma str_strip_idempotent (s : string) : str_strip (str_strip s) = str_strip s.
Proof.
  unfold str_strip.
  pose proof (str_lstrip_head s) as Hhead.
  destruct (str_lstrip s) as [| c u] eqn:Hu; [reflexivity |].
  destruct (str_rstrip_cons c u Hhead) as (rest & Hrest).
  rewrite Hrest. simpl str_lstrip. rewrite Hhead, <- Hrest.
  apply str_rstrip_idempotent.
Qed.

(** X20.  [load_reference_text] fails when the file does not exist and when
    it holds nothing but whitespace.  Otherwise it returns the file's
    text without the whitespace at its two ends: a text that is not
    empty and that stripping leaves as it is. *)
Theorem load_reference_text_spec
        (files : gmap string string) (filepath : string) :
  match load_reference_text files filepath with
  | inr text =>
      exists content,
        files !! filepath = Some content /\
        text = str_strip content /\
        nonempty text = true /\
        str_strip text = text
  | inl (ReferenceFileNotFound f) => f = filepath /\ files !! filepath = None
  | inl (ReferenceFileIsEmpty f) =>
      f = filepath /\
      exists content,
        files !! filepath = Some content /\
        str_forall isspace content = true
  end.
Proof.
  unfold load_reference_text.
  destruct (files !! filepath) as [content |]; [| split; reflexivity].
  cbv zeta. destruct (nonempty (str_strip content)) eqn:Hne; simpl.
  - exists content. repeat split; try assumption.
    apply str_strip_idempotent.
  - split; [reflexivity |]. exists content. split; [reflexivity |].
    apply str_strip_empty.
    destruct (str_strip content); [reflexivity | discriminate].
Qed.

(** ** Statistics on the selectors a caller can obtain *)

(** X21.  On every selector obtained from a fresh one through the class's
    methods, once scores are stored [get_statistics] returns: the score
    vector it reads holds at least one score. *)
Theorem statistics_available_once_scored
        (self : PaperSelector) (sims : list R) :
  reachable self -> similarities self = Some sims ->
  (1 <= length sims)%nat /\
  exists stats,
    get_statistics self = (Returns stats, self) /\
    stats !! "count"%string = Some (VInt (Z.of_nat (length sims))).
Proof.
  intros Hreach Hsims.
  pose proof (reachable_scores_nonempty self sims Hreach Hsims) as Hne.
  split; [apply length_pos_of_nonempty; exact Hne |].
  destruct (get_statistics_fields self sims Hsims Hne)
    as (stats & lo & hi & Hrun & _ & _ & Hdist & _).
  exists stats. split; [exact Hrun | apply Hdist].
Qed.

Lemma statistics_available_once_scored_witness :
  let X := {| shape1 := 2; rows := [[3; 4]; [0; 0]] |} in
  let s := map (fun x => dot (normalize_row x) (normalize_row [1; 0])) (rows X) in
  let self := after (compute_similarities (Array2D X) (Array1D [1; 0]) init) in
  exists stats,
    get_statistics self = (Returns stats, self) /\
    stats !! "count"%string = Some (VInt 2).
Proof.
  intros X s self.
  assert (Hreach : reachable self)
    by (apply reachable_compute_similarities, reachable_init).
  assert (Hsims : similarities self = Some s).
  { unfold self.
    rewrite (compute_similarities_1d init X [1; 0])
      by (try reflexivity; unfold shape0; simpl; lia).
    reflexivity. }
  destruct (statistics_available_once_scored self s Hreach Hsims)
    as (_ & stats & Hrun & Hcount).
  exists stats. split; [exact Hrun | exact Hcount].
Defined.
